(** * Scrapling executor: a shallow embedding of
      [hooks/src/browser/scrapling_executor.py]

    The script turns a JSON list of browser actions into calls of a
    browser-automation library and records one result per step.  The
    library, the Python runtime and the operating system are not part of
    the script: they appear here as records of operations ([Library],
    [Runtime], [Host]) over which every definition is parametrised.

    Conventions of the embedding.
    - A Python [str] is a [string]; one [ascii] stands for one character
      (a code point below 256).
    - A value decoded from JSON is a [json]; non-integer numbers are
      outside the model.
    - A Python [dict] is an association list in insertion order with
      distinct keys; [dict_get] is [dict.get].
    - An exception is known by its [str(e)] only; every exception of the
      model is an instance of Python's [Exception].
    - One expression of the source on a library object (a method call, a
      property read, or a locator chain such as
      [page.locator(s).first.inner_text()]) is one library operation, a
      constructor of [LibOp]. *)

From Stdlib Require Import String Ascii List ZArith Lia Bool Arith.
From Stdlib Require Import DecimalString DecimalPos DecimalZ Sorted.
Import ListNotations.
Open Scope string_scope.

(** ** Python values *)

#[warnings="-register-all"]
Inductive json : Type :=
| JNull
| JBool (b : bool)
| JNum (n : Z)
| JString (s : string)
| JArray (items : list json)
| JObject (fields : list (string * json)).

Definition dict := list (string * json).

Record exn := PyException { exn_str : string }.

Module Py.

(** [d.get(key, default)] *)
Fixpoint dict_get_default (d : dict) (key : string) (default : json) : json :=
  match d with
  | [] => default
  | (k, v) :: d' => if String.eqb k key then v else dict_get_default d' key default
  end.

(** [d.get(key)] *)
Definition dict_get (d : dict) (key : string) : json :=
  dict_get_default d key JNull.

(** Truth value of a decoded JSON value, as [if v:] tests it. *)
Definition truthy (v : json) : bool :=
  match v with
  | JNull => false
  | JBool b => b
  | JNum n => negb (Z.eqb n 0)
  | JString s => negb (String.eqb s "")
  | JArray l => match l with [] => false | _ => true end
  | JObject d => match d with [] => false | _ => true end
  end.

(** [v == 'literal'] *)
Definition eq_str (v : json) (lit : string) : bool :=
  match v with
  | JString s => String.eqb s lit
  | _ => false
  end.

(** [s[:n]] for a non-negative [n] *)
Fixpoint slice_to (n : nat) (s : string) : string :=
  match n, s with
  | S n', String c s' => String c (slice_to n' s')
  | _, _ => EmptyString
  end.

(** [str.isspace] on one character below 256 *)
Definition is_space (c : ascii) : bool :=
  let n := nat_of_ascii c in
  ((9 <=? n)%nat && (n <=? 13)%nat) || ((28 <=? n)%nat && (n <=? 32)%nat)
  || (n =? 133)%nat || (n =? 160)%nat.

(** The characters that [int] skips around a number: of the whitespace
    below 128, only tab to carriage return and the space. *)
Definition is_int_space (c : ascii) : bool :=
  let n := nat_of_ascii c in
  ((9 <=? n)%nat && (n <=? 13)%nat) || (n =? 32)%nat
  || (n =? 133)%nat || (n =? 160)%nat.

Fixpoint lstrip_by (sp : ascii -> bool) (s : string) : string :=
  match s with
  | String c s' => if sp c then lstrip_by sp s' else s
  | EmptyString => EmptyString
  end.

Fixpoint rstrip_by (sp : ascii -> bool) (s : string) : string :=
  match s with
  | String c s' =>
      match rstrip_by sp s' with
      | EmptyString => if sp c then EmptyString else String c EmptyString
      | r => String c r
      end
  | EmptyString => EmptyString
  end.

(** [s.strip()] *)
Definition strip (s : string) : string := rstrip_by is_space (lstrip_by is_space s).

(** Decimal text of an integer, as [str(n)] and [f'{n}'] give it (the
    integers of the model are within the limit that the runtime puts on this
    conversion). *)
Definition str_of_Z (n : Z) : string := NilZero.string_of_int (Z.to_int n).

Definition digit_val (c : ascii) : option Z :=
  let n := nat_of_ascii c in
  if (48 <=? n)%nat && (n <=? 57)%nat then Some (Z.of_nat (n - 48)) else None.

(** Digits with single underscores between them. *)
Fixpoint parse_digits (acc : Z) (after_digit : bool) (s : string) : option Z :=
  match s with
  | EmptyString => if after_digit then Some acc else None
  | String c s' =>
      match digit_val c with
      | Some d => parse_digits (acc * 10 + d) true s'
      | None =>
          if Ascii.eqb c "_" && after_digit then parse_digits acc false s' else None
      end
  end.

Fixpoint count_digits (s : string) : nat :=
  match s with
  | EmptyString => 0
  | String c s' =>
      match digit_val c with
      | Some _ => S (count_digits s')
      | None => count_digits s'
      end
  end.

(** [int(s)] for a [str]: surrounding whitespace, an optional sign, decimal
    digits.  [None] is [ValueError].  [max_digits] is
    [sys.get_int_max_str_digits()]: when it is not 0, a text of more digits
    is refused. *)
Definition int_of_str (max_digits : nat) (s : string) : option Z :=
  let body := rstrip_by is_int_space (lstrip_by is_int_space s) in
  let '(negative, digits) :=
    match body with
    | String "-" d => (true, d)
    | String "+" d => (false, d)
    | d => (false, d)
    end in
  match parse_digits 0 false digits with
  | Some n =>
      if (0 <? max_digits)%nat && (max_digits <? count_digits digits)%nat then None
      else Some (if negative then Z.opp n else n)
  | None => None
  end.

End Py.

(** ** The wrapped library, the runtime and the host *)

(** Keyword arguments built as [{'timeout': timeout} if timeout else {}]. *)
Definition kwargs := dict.

(** The operations of the browser library that [page_action] uses, with the
    arguments the script passes and the type of what the library returns.
    [Elem] is the type of the locators that [page.locator(s).all()] yields. *)
Inductive LibOp (Elem : Type) : Type -> Type :=
| Screenshot (path : string) : LibOp Elem unit
| Click (selector : json) (opts : kwargs) : LibOp Elem unit
| Fill (selector value : json) (opts : kwargs) : LibOp Elem unit
| TypeText (selector value : json) (opts : kwargs) : LibOp Elem unit
| Hover (selector : json) (opts : kwargs) : LibOp Elem unit
| Press (selector value : json) (opts : kwargs) : LibOp Elem unit
| SelectOption (selector value : json) (opts : kwargs) : LibOp Elem unit
| Check (selector : json) (opts : kwargs) : LibOp Elem unit
| Uncheck (selector : json) (opts : kwargs) : LibOp Elem unit
| WaitForTimeout (ms : Z) : LibOp Elem unit
| WaitForSelector (selector : json) (opts : kwargs) : LibOp Elem unit
| WaitForUrl (value : json) (opts : kwargs) : LibOp Elem unit
| LocatorFirstInnerText (selector : json) : LibOp Elem string
| LocatorFirstGetAttribute (selector attribute : json) : LibOp Elem (option string)
| LocatorFirstInputValue (selector : json) : LibOp Elem string
| LocatorAll (selector : json) : LibOp Elem (list Elem)
| ElemInnerText (el : Elem) : LibOp Elem string
| Evaluate (value : json) : LibOp Elem json
| GoBack (opts : kwargs) : LibOp Elem unit
| GoForward (opts : kwargs) : LibOp Elem unit
| Reload (opts : kwargs) : LibOp Elem unit
| LocatorScrollIntoViewIfNeeded (selector : json) : LibOp Elem unit
| Focus (selector : json) (opts : kwargs) : LibOp Elem unit
| LocatorBlur (selector : json) : LibOp Elem unit
| DragAndDrop (selector value : json) (opts : kwargs) : LibOp Elem unit
| SetInputFiles (selector value : json) (opts : kwargs) : LibOp Elem unit
| PageUrl : LibOp Elem string
| PageTitle : LibOp Elem string.

Arguments Screenshot {Elem}.
Arguments Click {Elem}.
Arguments Fill {Elem}.
Arguments TypeText {Elem}.
Arguments Hover {Elem}.
Arguments Press {Elem}.
Arguments SelectOption {Elem}.
Arguments Check {Elem}.
Arguments Uncheck {Elem}.
Arguments WaitForTimeout {Elem}.
Arguments WaitForSelector {Elem}.
Arguments WaitForUrl {Elem}.
Arguments LocatorFirstInnerText {Elem}.
Arguments LocatorFirstGetAttribute {Elem}.
Arguments LocatorFirstInputValue {Elem}.
Arguments LocatorAll {Elem}.
Arguments ElemInnerText {Elem}.
Arguments Evaluate {Elem}.
Arguments GoBack {Elem}.
Arguments GoForward {Elem}.
Arguments Reload {Elem}.
Arguments LocatorScrollIntoViewIfNeeded {Elem}.
Arguments Focus {Elem}.
Arguments LocatorBlur {Elem}.
Arguments DragAndDrop {Elem}.
Arguments SetInputFiles {Elem}.
Arguments PageUrl {Elem}.
Arguments PageTitle {Elem}.

(** What [execute] reads of the response object: [resp_url] is [None] when
    the object has no attribute [url]. *)
Record Response := { resp_url : option json; resp_status : json }.

(** One keyword argument of a fetcher: a value, or the [page_action] closure. *)
Inductive kwarg : Type :=
| KwValue (v : json)
| KwPageAction.

Definition fetch_kwargs := list (string * kwarg).

(** A run of a fetcher that was given the [page_action] callback: it ends
    with a response or an exception, or calls the callback on a page and goes
    on from what the callback did (the exception it raised or the value it
    returned, and the page it left). *)
Inductive FetchRun (W : Type) : Type :=
| FetchDone (r : exn + Response)
| FetchPageAction (page : W) (k : exn + list dict -> W -> FetchRun W).

Arguments FetchDone {W}.
Arguments FetchPageAction {W}.

(** The library: [W] is the state of a page. *)
Record Library (W Elem : Type) : Type := {
  page_call : forall T, LibOp Elem T -> W -> (exn + T) * W;
  stealthy_fetch : json -> fetch_kwargs -> FetchRun W;
  dynamic_fetch : json -> fetch_kwargs -> FetchRun W;
  fetcher_get : json -> fetch_kwargs -> exn + Response
}.

Arguments page_call {W Elem}.
Arguments stealthy_fetch {W Elem}.
Arguments dynamic_fetch {W Elem}.
Arguments fetcher_get {W Elem}.

(** Failures of Python's built-in operations that the script can meet. *)
Inductive PyError : Type :=
| IntValueError (s : string)
| IntTypeError (v : json)
| PathJoinTypeError (v : json)
| PathTypeError (v : json)
| FloorDivTypeError (v : json)
| NotIterable (v : json)
| NoAttributeGet (v : json)
| KeyError (key : string)
| SubscriptTypeError (v : json).

(** The Python runtime: [sys.get_int_max_str_digits()] (0 when there is no
    limit), [repr] of a [str], [str(Path(d) / name)], the text of
    a built-in error, [json.dumps(v, indent=2, ensure_ascii=b)] and
    [json.loads]. *)
Record Runtime : Type := {
  int_max_str_digits : nat;
  repr_str : string -> string;
  path_join : string -> string -> string;
  builtin_error : PyError -> string;
  json_dumps : bool -> json -> string;
  json_loads : string -> exn + json
}.

(** The host: the JSON document on stdin, the JSON document in a file,
    [Path(d).mkdir(parents=True, exist_ok=True)] ([None] when it succeeds) and
    the text of [parser.print_help()]. *)
Record Host : Type := {
  stdin_json : exn + json;
  file_json : string -> exn + json;
  mkdir : string -> option exn;
  help_text : string
}.

(** ** State and exceptions of [page_action] *)

(** A library operation as it appears in the log of calls: the index of the
    step that made the call, the call, and what the library answered (the
    exception it raised, or the value it returned). *)
Record event (Elem : Type) : Type := {
  ev_step : nat;
  ev_call : {T : Type & (LibOp Elem T * (exn + T))%type}
}.

Arguments ev_step {Elem}.
Arguments ev_call {Elem}.

(** The exception a logged call raised, if it raised. *)
Definition ev_error {Elem : Type} (ev : event Elem) : option exn :=
  match snd (projT2 (ev_call ev)) with
  | inl e => Some e
  | inr _ => None
  end.

Definition raised {Elem : Type} (ev : event Elem) : bool :=
  match ev_error ev with
  | Some _ => true
  | None => false
  end.

(** Is the operation an [el.inner_text()] of the loop of [list_elements]? *)
Definition op_is_elem_text {Elem T : Type} (op : LibOp Elem T) : bool :=
  match op with
  | ElemInnerText _ => true
  | _ => false
  end.

Definition is_elem_text {Elem : Type} (ev : event Elem) : bool :=
  op_is_elem_text (fst (projT2 (ev_call ev))).

(** What a run of [page_action] reads and writes: the page, the list
    [results] of the enclosing [create_page_action] (shared by every call of
    the closure) and the log of the library operations invoked so far. *)
Record state (W Elem : Type) : Type := {
  page : W;
  results : list dict;
  trace : list (event Elem)
}.

Arguments page {W Elem}.
Arguments results {W Elem}.
Arguments trace {W Elem}.

(** A computation that reads and writes the state and returns a value or
    raises. *)
Definition M (W Elem A : Type) : Type := state W Elem -> (exn + A) * state W Elem.

Section Monad.
Context {W Elem : Type}.

Definition ret {A : Type} (a : A) : M W Elem A := fun s => (inr a, s).

Definition bind {A B : Type} (m : M W Elem A) (f : A -> M W Elem B) : M W Elem B :=
  fun s =>
    match m s with
    | (inr a, s') => f a s'
    | (inl e, s') => (inl e, s')
    end.

Definition raise {A : Type} (e : exn) : M W Elem A := fun s => (inl e, s).

(** [try: body  except Exception as e: handler e] *)
Definition try_except {A : Type} (body : M W Elem A) (handler : exn -> M W Elem A)
  : M W Elem A :=
  fun s =>
    match body s with
    | (inl e, s') => handler e s'
    | (inr a, s') => (inr a, s')
    end.

(** A value computed by a built-in that may raise. *)
Definition lift {A : Type} (r : exn + A) : M W Elem A := fun s => (r, s).

(** [results.append(r)] *)
Definition append (r : dict) : M W Elem unit :=
  fun s => (inr tt, {| page := page s; results := (results s ++ [r])%list; trace := trace s |}).

(** The library operation [op], invoked while step [i] is processed. *)
Definition call (lib : Library W Elem) (i : nat) {T : Type} (op : LibOp Elem T)
  : M W Elem T :=
  fun s =>
    let (r, w) := page_call lib T op (page s) in
    (r, {| page := w; results := results s;
           trace := (trace s ++ [{| ev_step := i; ev_call := existT _ T (op, r) |}])%list |}).

End Monad.

Notation "x <- m ;; k" := (bind m (fun x => k))
  (at level 61, m at next level, right associativity).
Notation "m ;;; k" := (bind m (fun _ => k))
  (at level 61, right associativity).

(** ** Built-ins that depend on the runtime *)

Section Builtins.
Variable rt : Runtime.

Definition error (e : PyError) : exn := PyException (builtin_error rt e).

Definition join (sep : string) (parts : list string) : string := String.concat sep parts.

(** [repr(v)] *)
Fixpoint py_repr (v : json) : string :=
  match v with
  | JNull => "None"
  | JBool true => "True"
  | JBool false => "False"
  | JNum n => Py.str_of_Z n
  | JString s => repr_str rt s
  | JArray l => "[" ++ join ", " (map py_repr l) ++ "]"
  | JObject d =>
      "{" ++ join ", " (map (fun '(k, x) => repr_str rt k ++ ": " ++ py_repr x) d) ++ "}"
  end.

(** [str(v)], which is also what an f-string substitutes for [{v}]. *)
Definition py_str (v : json) : string :=
  match v with
  | JString s => s
  | _ => py_repr v
  end.

(** [int(v)] *)
Definition py_int (v : json) : exn + Z :=
  match v with
  | JNum n => inr n
  | JBool b => inr (if b then 1%Z else 0%Z)
  | JString s =>
      match Py.int_of_str (int_max_str_digits rt) s with
      | Some n => inr n
      | None => inl (error (IntValueError s))
      end
  | _ => inl (error (IntTypeError v))
  end.

(** [v // 1000] *)
Definition py_floordiv_1000 (v : json) : exn + json :=
  match v with
  | JNum n => inr (JNum (n / 1000))
  | JBool b => inr (JNum ((if b then 1 else 0) / 1000))
  | _ => inl (error (FloorDivTypeError v))
  end.

(** [str(output_dir / name)] for a [name] taken from JSON: only a [str]
    can be joined to a path. *)
Definition py_path_join (output_dir : string) (name : json) : exn + string :=
  match name with
  | JString f => inr (path_join rt output_dir f)
  | _ => inl (error (PathJoinTypeError name))
  end.

(** The items that [for ... in enumerate(v)] visits; [None] when [v] is
    not iterable. *)
Definition iter_items (v : json) : option (list json) :=
  match v with
  | JArray l => Some l
  | JString s =>
      Some (map (fun c => JString (String c EmptyString)) (list_ascii_of_string s))
  | JObject d => Some (map (fun kv => JString (fst kv)) d)
  | _ => None
  end.

End Builtins.

(** ** [create_page_action] *)

Section PageAction.
Context {W Elem : Type}.
Variable lib : Library W Elem.
Variable rt : Runtime.

(** [{'timeout': timeout} if timeout else {}] *)
Definition opts_of (timeout : json) : kwargs :=
  if Py.truthy timeout then [("timeout", timeout)] else [].

(** [{'step': i, 'action': action, 'status': status, ...more}] *)
Definition record (i : nat) (action : json) (status : string) (more : dict) : dict :=
  ([("step", JNum (Z.of_nat i)); ("action", action); ("status", JString status)]
     ++ more)%list.

(** [filename or f'screenshot-{i}.png'] *)
Definition screenshot_name (i : nat) (filename : json) : json :=
  if Py.truthy filename then filename
  else JString ("screenshot-" ++ Py.str_of_Z (Z.of_nat i) ++ ".png").

(** A value of type [Optional[str]] as a JSON value. *)
Definition json_of_opt_str (o : option string) : json :=
  match o with
  | Some s => JString s
  | None => JNull
  end.

(** The loop [for el in ...: try: texts.append(el.inner_text()[:200].strip())
    except Exception: texts.append('[no text]')] of the [list_elements]
    branch, over the elements still to visit. *)
Fixpoint collect_texts (i : nat) (els : list Elem) (texts : list json)
  : M W Elem (list json) :=
  match els with
  | [] => ret texts
  | el :: els' =>
      t <- try_except
             (text <- call lib i (ElemInnerText el) ;;
              ret (JString (Py.strip (Py.slice_to 200 text))))
             (fun _ => ret (JString "[no text]")) ;;
      collect_texts i els' (texts ++ [t])%list
  end.

(** The body of the [try] of step [i]: the chain of [if]/[elif] on
    [action]. *)
Definition dispatch (output_dir : string) (i : nat) (step : dict) : M W Elem unit :=
  let action := Py.dict_get step "action" in
  let selector := Py.dict_get step "selector" in
  let value := Py.dict_get step "value" in
  let filename := Py.dict_get step "filename" in
  let attribute := Py.dict_get_default step "attribute" (JString "href") in
  let timeout := Py.dict_get step "timeout" in
  let ok := record i action "ok" in
  if Py.eq_str action "screenshot" then
    path <- lift (py_path_join rt output_dir (screenshot_name i filename)) ;;
    call lib i (Screenshot path) ;;;
    append (ok [("path", JString path)])
  else if Py.eq_str action "click" then
    call lib i (Click selector (opts_of timeout)) ;;;
    append (ok [("selector", selector)])
  else if Py.eq_str action "fill" then
    call lib i (Fill selector value (opts_of timeout)) ;;;
    append (ok [("selector", selector)])
  else if Py.eq_str action "type" then
    call lib i (TypeText selector value (opts_of timeout)) ;;;
    append (ok [("selector", selector)])
  else if Py.eq_str action "hover" then
    call lib i (Hover selector (opts_of timeout)) ;;;
    append (ok [("selector", selector)])
  else if Py.eq_str action "press" then
    call lib i (Press selector value (opts_of timeout)) ;;;
    append (ok [("selector", selector); ("key", value)])
  else if Py.eq_str action "select" then
    call lib i (SelectOption selector value (opts_of timeout)) ;;;
    append (ok [("selector", selector); ("value", value)])
  else if Py.eq_str action "check" then
    call lib i (Check selector (opts_of timeout)) ;;;
    append (ok [("selector", selector)])
  else if Py.eq_str action "uncheck" then
    call lib i (Uncheck selector (opts_of timeout)) ;;;
    append (ok [("selector", selector)])
  else if Py.eq_str action "wait" then
    ms <- lift (if Py.truthy value then py_int rt value else inr 1000%Z) ;;
    call lib i (WaitForTimeout ms) ;;;
    append (ok [("ms", JNum ms)])
  else if Py.eq_str action "wait_selector" then
    call lib i (WaitForSelector selector (opts_of timeout)) ;;;
    append (ok [("selector", selector)])
  else if Py.eq_str action "wait_url" then
    call lib i (WaitForUrl value (opts_of timeout)) ;;;
    append (ok [("url_pattern", value)])
  else if Py.eq_str action "get_text" then
    text <- call lib i (LocatorFirstInnerText selector) ;;
    append (ok [("selector", selector); ("text", JString (Py.slice_to 1000 text))])
  else if Py.eq_str action "get_attribute" then
    val <- call lib i (LocatorFirstGetAttribute selector attribute) ;;
    append (ok [("selector", selector); ("attribute", attribute);
                ("value", json_of_opt_str val)])
  else if Py.eq_str action "get_value" then
    val <- call lib i (LocatorFirstInputValue selector) ;;
    append (ok [("selector", selector); ("value", JString val)])
  else if Py.eq_str action "list_elements" then
    elements <- call lib i (LocatorAll selector) ;;
    texts <- collect_texts i (firstn 50 elements) [] ;;
    append (ok [("selector", selector);
                ("count", JNum (Z.of_nat (length elements)));
                ("texts", JArray texts)])
  else if Py.eq_str action "evaluate" then
    result <- call lib i (Evaluate value) ;;
    append (ok [("result", JString (Py.slice_to 1000 (py_str rt result)))])
  else if Py.eq_str action "go_back" then
    call lib i (GoBack (opts_of timeout)) ;;;
    append (ok [])
  else if Py.eq_str action "go_forward" then
    call lib i (GoForward (opts_of timeout)) ;;;
    append (ok [])
  else if Py.eq_str action "reload" then
    call lib i (Reload (opts_of timeout)) ;;;
    append (ok [])
  else if Py.eq_str action "scroll" then
    call lib i (LocatorScrollIntoViewIfNeeded selector) ;;;
    append (ok [("selector", selector)])
  else if Py.eq_str action "focus" then
    call lib i (Focus selector (opts_of timeout)) ;;;
    append (ok [("selector", selector)])
  else if Py.eq_str action "blur" then
    call lib i (LocatorBlur selector) ;;;
    append (ok [("selector", selector)])
  else if Py.eq_str action "drag" then
    call lib i (DragAndDrop selector value (opts_of timeout)) ;;;
    append (ok [("source", selector); ("target", value)])
  else if Py.eq_str action "upload_file" then
    call lib i (SetInputFiles selector value (opts_of timeout)) ;;;
    append (ok [("selector", selector); ("file", value)])
  else if Py.eq_str action "get_url" then
    url <- call lib i PageUrl ;;
    append (ok [("url", JString url)])
  else if Py.eq_str action "get_title" then
    title <- call lib i PageTitle ;;
    append (ok [("title", JString title)])
  else
    append (record i action "error"
              [("error", JString ("Unknown action: " ++ py_str rt action))]).

(** One iteration of the loop of [page_action] on a step that is a dict. *)
Definition process_step (output_dir : string) (i : nat) (step : dict) : M W Elem unit :=
  try_except
    (dispatch output_dir i step)
    (fun e => append (record i (Py.dict_get step "action") "error"
                        [("error", JString (exn_str e))])).

(** The loop of [page_action] from index [i] on.  A step that is not a
    dict has no [get]: the [AttributeError] is raised outside the [try]
    and leaves [page_action]. *)
Fixpoint run_steps (output_dir : string) (i : nat) (steps : list json)
  : M W Elem unit :=
  match steps with
  | [] => ret tt
  | JObject step :: rest =>
      process_step output_dir i step ;;;
      run_steps output_dir (S i) rest
  | v :: _ => raise (error rt (NoAttributeGet v))
  end.

(** [page_action(page)]: the page and the shared [results] are in the
    state; the value returned is [results]. *)
Definition page_action (actions : json) (output_dir : string) : M W Elem (list dict) :=
  match iter_items actions with
  | Some steps =>
      run_steps output_dir 0 steps ;;;
      (fun s => (inr (results s), s))
  | None => raise (error rt (NotIterable actions))
  end.

(** [create_page_action(actions, output_dir)]: the closure [page_action]
    and the reader [lambda: results].  The list [results] that both share
    is the one of the state, empty when the closure is made; the reader is
    given its current content. *)
Definition create_page_action (actions : json) (output_dir : string)
  : M W Elem (list dict) * (list dict -> list dict) :=
  (page_action actions output_dir, fun results => results).

End PageAction.

(** ** [execute] *)

(** The call of a fetcher that [execute] makes, with its arguments. *)
Inductive FetchCall : Type :=
| StealthyFetcherFetch (url : json) (kw : fetch_kwargs)
| DynamicFetcherFetch (url : json) (kw : fetch_kwargs)
| FetcherGet (url : json) (kw : fetch_kwargs).

(** What a call of [execute] does: the value it returns or the exception it
    raises, the fetcher call it made (if it came that far), how many times
    the fetcher called [page_action], and the log of the page operations
    invoked by these calls. *)
Record Execution (Elem : Type) : Type := {
  ex_result : exn + dict;
  ex_fetch : option FetchCall;
  ex_passes : nat;
  ex_trace : list (event Elem)
}.

Arguments ex_result {Elem}.
Arguments ex_fetch {Elem}.
Arguments ex_passes {Elem}.
Arguments ex_trace {Elem}.

(** [key in kw] *)
Fixpoint kw_has (kw : fetch_kwargs) (key : string) : bool :=
  match kw with
  | [] => false
  | (k, _) :: kw' => String.eqb k key || kw_has kw' key
  end.

(** [kw.get(key)] *)
Fixpoint kw_get (kw : fetch_kwargs) (key : string) : option kwarg :=
  match kw with
  | [] => None
  | (k, v) :: kw' => if String.eqb k key then Some v else kw_get kw' key
  end.

(** [kw[key] = v]: in place when the key is there, at the end otherwise. *)
Fixpoint kw_set (kw : fetch_kwargs) (key : string) (v : kwarg) : fetch_kwargs :=
  match kw with
  | [] => [(key, v)]
  | (k, x) :: kw' => if String.eqb k key then (k, v) :: kw' else (k, x) :: kw_set kw' key v
  end.

(** [del kw[key]] for a key that is there. *)
Fixpoint kw_del (kw : fetch_kwargs) (key : string) : fetch_kwargs :=
  match kw with
  | [] => []
  | (k, x) :: kw' => if String.eqb k key then kw' else (k, x) :: kw_del kw' key
  end.

(** [config[key]] on a dict: [None] is [KeyError]. *)
Fixpoint dict_lookup (d : dict) (key : string) : option json :=
  match d with
  | [] => None
  | (k, v) :: d' => if String.eqb k key then Some v else dict_lookup d' key
  end.

Section Execute.
Context {W Elem : Type}.
Variable lib : Library W Elem.
Variable rt : Runtime.
Variable host : Host.

(** The fetcher at work: each time it calls the callback, the closure
    runs on the page it is given, on the [results] and the log left by
    the calls before; [passes] counts the calls. *)
Fixpoint run_fetch (page_action : M W Elem (list dict)) (run : FetchRun W)
    (res : list dict) (tr : list (event Elem)) (passes : nat)
  : (exn + Response) * (list dict * list (event Elem) * nat) :=
  match run with
  | FetchDone r => (r, (res, tr, passes))
  | FetchPageAction pg k =>
      let (r, s) := page_action {| page := pg; results := res; trace := tr |} in
      run_fetch page_action (k r (page s)) (results s) (trace s) (S passes)
  end.

(** The dict that [execute] returns. *)
Definition result_dict (url method : json) (response : Response) (res : list dict)
  : dict :=
  [("url", url);
   ("finalUrl", match resp_url response with Some u => u | None => url end);
   ("status", resp_status response);
   ("method", method);
   ("actions", JArray (map JObject res))].

Definition failed (e : exn) : Execution Elem :=
  {| ex_result := inl e; ex_fetch := None; ex_passes := 0; ex_trace := [] |}.

(** The part of [execute] from the fetch to the return, for a fetcher that
    takes the callback; [results] is the empty list that
    [create_page_action] made. *)
Definition fetch_with_actions (call : FetchCall) (run : FetchRun W)
    (url method : json) (page_action : M W Elem (list dict))
    (get_results : list dict -> list dict) : Execution Elem :=
  let '(r, (res, tr, passes)) := run_fetch page_action run [] [] 0 in
  {| ex_result :=
       match r with
       | inl e => inl e
       | inr response => inr (result_dict url method response (get_results res))
       end;
     ex_fetch := Some call;
     ex_passes := passes;
     ex_trace := tr |}.

Definition execute_traced (config : json) : Execution Elem :=
  match config with
  | JObject cfg =>
      match dict_lookup cfg "url" with
      | None => failed (error rt (KeyError "url"))
      | Some url =>
          let actions := Py.dict_get_default cfg "actions" (JArray []) in
          let method := Py.dict_get_default cfg "method" (JString "stealthy-fetch") in
          let headless := Py.dict_get_default cfg "headless" (JBool true) in
          let timeout := Py.dict_get_default cfg "timeout" (JNum 45000) in
          let solve_cloudflare := Py.dict_get_default cfg "solveCloudflare" (JBool false) in
          let real_chrome := Py.dict_get_default cfg "realChrome" (JBool false) in
          let network_idle := Py.dict_get_default cfg "networkIdle" (JBool true) in
          match Py.dict_get_default cfg "outputDir" (JString ".") with
          | JString output_dir =>
              let user_data_dir := Py.dict_get cfg "userDataDir" in
              match mkdir host output_dir with
              | Some e => failed e
              | None =>
                  let (page_action, get_results) :=
                    create_page_action lib rt actions output_dir in
                  let kw0 : fetch_kwargs :=
                    [("headless", KwValue headless);
                     ("page_action", KwPageAction);
                     ("timeout", KwValue timeout);
                     ("network_idle", KwValue network_idle)] in
                  let kw1 :=
                    if Py.truthy real_chrome
                    then kw_set kw0 "real_chrome" (KwValue (JBool true)) else kw0 in
                  let kw2 :=
                    if Py.truthy user_data_dir
                    then kw_set kw1 "user_data_dir" (KwValue user_data_dir) else kw1 in
                  if Py.eq_str method "stealthy-fetch" then
                    let kw3 :=
                      if Py.truthy solve_cloudflare
                      then kw_set kw2 "solve_cloudflare" (KwValue (JBool true)) else kw2 in
                    fetch_with_actions (StealthyFetcherFetch url kw3)
                      (stealthy_fetch lib url kw3) url method page_action get_results
                  else if Py.eq_str method "fetch" then
                    fetch_with_actions (DynamicFetcherFetch url kw2)
                      (dynamic_fetch lib url kw2) url method page_action get_results
                  else
                    let kw3 := kw_del (kw_del kw2 "page_action") "network_idle" in
                    match py_floordiv_1000 rt timeout with
                    | inl e => failed e
                    | inr seconds =>
                        let kw4 := kw_set kw3 "timeout" (KwValue seconds) in
                        {| ex_result :=
                             match fetcher_get lib url kw4 with
                             | inl e => inl e
                             | inr response =>
                                 inr (result_dict url method response (get_results []))
                             end;
                           ex_fetch := Some (FetcherGet url kw4);
                           ex_passes := 0;
                           ex_trace := [] |}
                    end
              end
          | v => failed (error rt (PathTypeError v))
          end
      end
  | v => failed (error rt (SubscriptTypeError v))
  end.

(** [execute(config)]: the value returned, or the exception raised. *)
Definition execute (config : json) : exn + dict := ex_result (execute_traced config).

End Execute.

(** ** [main] *)

(** The values [--method] accepts. *)
Inductive MethodChoice : Type := MethodGet | MethodFetch | MethodStealthyFetch.

Definition method_name (m : MethodChoice) : string :=
  match m with
  | MethodGet => "get"
  | MethodFetch => "fetch"
  | MethodStealthyFetch => "stealthy-fetch"
  end.

(** The namespace that [parser.parse_args()] returns.  An option that takes
    a value and is absent from the command line is [None]. *)
Record Args : Type := {
  arg_url : option string;
  arg_actions : option string;
  arg_method : MethodChoice;
  arg_headless : bool;
  arg_no_headless : bool;
  arg_timeout : Z;
  arg_solve_cloudflare : bool;
  arg_real_chrome : bool;
  arg_network_idle : bool;
  arg_output_dir : string;
  arg_user_data_dir : option string;
  arg_stdin : bool;
  arg_config : option string
}.

(** How the process ends: [main] returns, [sys.exit(code)] is called, or an
    exception leaves [main]. *)
Inductive Ending : Type :=
| Returns
| SysExit (code : Z)
| Uncaught (e : exn).

(** The exit status of the process. *)
Definition exit_status (e : Ending) : Z :=
  match e with
  | Returns => 0
  | SysExit code => code
  | Uncaught _ => 1
  end.

(** What a run of [main] shows: the texts it prints on stdout and on stderr,
    in order, and how it ends. *)
Record Outcome : Type := {
  stdout : list string;
  stderr : list string;
  ending : Ending
}.

(** Truth value of an option of the command line, as [if args.x:] tests it. *)
Definition given (o : option string) : bool :=
  match o with
  | Some s => negb (String.eqb s "")
  | None => false
  end.

Definition json_of_opt (o : option string) : json :=
  match o with
  | Some s => JString s
  | None => JNull
  end.

Section Main.
Context {W Elem : Type}.
Variable lib : Library W Elem.
Variable rt : Runtime.
Variable host : Host.

(** The dict built from the flags, in the [elif args.url:] branch. *)
Definition config_of_flags (args : Args) (url : string) : exn + json :=
  match (if given (arg_actions args)
         then json_loads rt (match arg_actions args with Some a => a | None => "" end)
         else inr (JArray [])) with
  | inl e => inl e
  | inr actions =>
      inr (JObject
             [("url", JString url);
              ("actions", actions);
              ("method", JString (method_name (arg_method args)));
              ("headless", JBool (negb (arg_no_headless args)));
              ("timeout", JNum (arg_timeout args));
              ("solveCloudflare", JBool (arg_solve_cloudflare args));
              ("realChrome", JBool (arg_real_chrome args));
              ("networkIdle", JBool (arg_network_idle args));
              ("outputDir", JString (arg_output_dir args));
              ("userDataDir", json_of_opt (arg_user_data_dir args))])
  end.

(** The first part of [main]: where the configuration comes from.  [None]
    is the last branch, which prints the help and exits. *)
Definition load_config (args : Args) : option (exn + json) :=
  if arg_stdin args then Some (stdin_json host)
  else if given (arg_config args) then
    Some (file_json host (match arg_config args with Some p => p | None => "" end))
  else if given (arg_url args) then
    Some (config_of_flags args (match arg_url args with Some u => u | None => "" end))
  else None.

(** The second part of [main]: [execute] under [try]. *)
Definition run_config (config : json) : Outcome :=
  match execute lib rt host config with
  | inr result =>
      {| stdout := [json_dumps rt false (JObject result)];
         stderr := [];
         ending := Returns |}
  | inl e =>
      {| stdout := [];
         stderr := [json_dumps rt true (JObject [("error", JString (exn_str e))])];
         ending := SysExit 1 |}
  end.

Definition main (args : Args) : Outcome :=
  match load_config args with
  | None => {| stdout := [help_text host]; stderr := []; ending := SysExit 1 |}
  | Some (inl e) => {| stdout := []; stderr := []; ending := Uncaught e |}
  | Some (inr config) => run_config config
  end.

End Main.

(** ** Vocabulary of the properties *)

(** The action names that the chain of [dispatch] tests, in its order. *)
Definition recognized_actions : list string :=
  ["screenshot"; "click"; "fill"; "type"; "hover"; "press"; "select"; "check";
   "uncheck"; "wait"; "wait_selector"; "wait_url"; "get_text"; "get_attribute";
   "get_value"; "list_elements"; "evaluate"; "go_back"; "go_forward"; "reload";
   "scroll"; "focus"; "blur"; "drag"; "upload_file"; "get_url"; "get_title"].

Definition recognized (action : json) : bool :=
  existsb (Py.eq_str action) recognized_actions.

(** Do the arguments of the library call of a step evaluate without an
    exception?  Only two branches compute before they call: [screenshot]
    joins a path, [wait] converts its value with [int]. *)
Definition args_ok (rt : Runtime) (output_dir : string) (i : nat) (step : dict) : bool :=
  let action := Py.dict_get step "action" in
  if Py.eq_str action "screenshot" then
    match py_path_join rt output_dir (screenshot_name i (Py.dict_get step "filename")) with
    | inr _ => true
    | inl _ => false
    end
  else if Py.eq_str action "wait" then
    if Py.truthy (Py.dict_get step "value") then
      match py_int rt (Py.dict_get step "value") with
      | inr _ => true
      | inl _ => false
      end
    else true
  else true.

(** The events of step [i] in a log. *)
Definition events_of {Elem : Type} (i : nat) (log : list (event Elem)) : list (event Elem) :=
  filter (fun ev => Nat.eqb (ev_step ev) i) log.

(** The operation of a logged call, without its answer. *)
Definition op_of {Elem : Type} (ev : event Elem) : {T : Type & LibOp Elem T} :=
  existT _ (projT1 (ev_call ev)) (fst (projT2 (ev_call ev))).

(** The record of a step whose library call raised [e]. *)
Definition error_record (i : nat) (action : json) (e : exn) : dict :=
  record i action "error" [("error", JString (exn_str e))].

(** The state in which the closure of [create_page_action] is first called
    on a page: [results] is the empty list. *)
Definition fresh {W Elem : Type} (pg : W) : state W Elem :=
  {| page := pg; results := []; trace := [] |}.

(** The forms that the body of the [try] of a step takes: an unknown
    action; arguments that raise before any library call; one library call
    and the record made from its answer; the [list_elements] branch. *)
Inductive Shape {W Elem : Type} (lib : Library W Elem) (rt : Runtime)
    (output_dir : string) (i : nat) (step : dict) : Prop :=
| ShapeUnknown :
    (forall s, dispatch lib rt output_dir i step s
               = append (record i (Py.dict_get step "action") "error"
                           [("error", JString ("Unknown action: "
                                               ++ py_str rt (Py.dict_get step "action")))]) s) ->
    recognized (Py.dict_get step "action") = false ->
    Shape lib rt output_dir i step
| ShapeArgs (e : exn) :
    (forall s, dispatch lib rt output_dir i step s = (inl e, s)) ->
    recognized (Py.dict_get step "action") = true ->
    Py.eq_str (Py.dict_get step "action") "list_elements" = false ->
    args_ok rt output_dir i step = false ->
    Shape lib rt output_dir i step
| ShapeCall (T : Type) (op : LibOp Elem T) (k : T -> dict) :
    (forall s, dispatch lib rt output_dir i step s
               = (x <- call lib i op ;;
                  append (record i (Py.dict_get step "action") "ok" (k x))) s) ->
    recognized (Py.dict_get step "action") = true ->
    Py.eq_str (Py.dict_get step "action") "list_elements" = false ->
    args_ok rt output_dir i step = true ->
    op_is_elem_text op = false ->
    Shape lib rt output_dir i step
| ShapeList :
    (forall s, dispatch lib rt output_dir i step s
               = (elements <- call lib i (LocatorAll (Py.dict_get step "selector")) ;;
                  texts <- collect_texts lib i (firstn 50 elements) [] ;;
                  append (record i (Py.dict_get step "action") "ok"
                            [("selector", Py.dict_get step "selector");
                             ("count", JNum (Z.of_nat (length elements)));
                             ("texts", JArray texts)])) s) ->
    recognized (Py.dict_get step "action") = true ->
    Py.eq_str (Py.dict_get step "action") "list_elements" = true ->
    args_ok rt output_dir i step = true ->
    Shape lib rt output_dir i step.

(** The entry of [texts] that the loop of [list_elements] makes from the
    answer to [el.inner_text()]. *)
Definition text_of (o : exn + string) : json :=
  match o with
  | inr t => JString (Py.strip (Py.slice_to 200 t))
  | inl _ => JString "[no text]"
  end.

(** The log entry of the call [op] of step [i] that was answered by [r]. *)
Definition call_event {Elem T : Type} (i : nat) (op : LibOp Elem T) (r : exn + T)
  : event Elem :=
  {| ev_step := i; ev_call := existT _ T (op, r) |}.

Definition elem_event {Elem : Type} (i : nat) (p : Elem * (exn + string)) : event Elem :=
  call_event i (ElemInnerText (fst p)) (snd p).

(** The record of a step with an unknown action. *)
Definition unknown_record (rt : Runtime) (i : nat) (action : json) : dict :=
  record i action "error" [("error", JString ("Unknown action: " ++ py_str rt action))].

(** [StepLog lib rt out i step w rec evs w']: processing [step] as step [i]
    on the page [w] appends the record [rec], invokes the library
    operations [evs] in this order and leaves the page [w']. *)
Inductive StepLog {W Elem : Type} (lib : Library W Elem) (rt : Runtime)
    (output_dir : string) (i : nat) (step : dict) (w : W)
  : dict -> list (event Elem) -> W -> Prop :=
| LogUnknown :
    recognized (Py.dict_get step "action") = false ->
    StepLog lib rt output_dir i step w
      (unknown_record rt i (Py.dict_get step "action")) [] w
| LogArgs (e : exn) :
    recognized (Py.dict_get step "action") = true ->
    Py.eq_str (Py.dict_get step "action") "list_elements" = false ->
    args_ok rt output_dir i step = false ->
    StepLog lib rt output_dir i step w
      (error_record i (Py.dict_get step "action") e) [] w
| LogCall (T : Type) (op : LibOp Elem T) (k : T -> dict) (r : exn + T) (w' : W) :
    recognized (Py.dict_get step "action") = true ->
    Py.eq_str (Py.dict_get step "action") "list_elements" = false ->
    args_ok rt output_dir i step = true ->
    op_is_elem_text op = false ->
    page_call lib T op w = (r, w') ->
    StepLog lib rt output_dir i step w
      (match r with
       | inr x => record i (Py.dict_get step "action") "ok" (k x)
       | inl e => error_record i (Py.dict_get step "action") e
       end)
      [call_event i op r] w'
| LogListFails (e : exn) (w' : W) :
    recognized (Py.dict_get step "action") = true ->
    Py.eq_str (Py.dict_get step "action") "list_elements" = true ->
    page_call lib _ (LocatorAll (Py.dict_get step "selector")) w = (inl e, w') ->
    StepLog lib rt output_dir i step w
      (error_record i (Py.dict_get step "action") e)
      [call_event i (LocatorAll (Py.dict_get step "selector")) (inl e)] w'
| LogList (elements : list Elem) (w' : W) (outs : list (exn + string)) (w'' : W) :
    recognized (Py.dict_get step "action") = true ->
    Py.eq_str (Py.dict_get step "action") "list_elements" = true ->
    page_call lib _ (LocatorAll (Py.dict_get step "selector")) w = (inr elements, w') ->
    length outs = length (firstn 50 elements) ->
    StepLog lib rt output_dir i step w
      (record i (Py.dict_get step "action") "ok"
         [("selector", Py.dict_get step "selector");
          ("count", JNum (Z.of_nat (length elements)));
          ("texts", JArray (map text_of outs))])
      (call_event i (LocatorAll (Py.dict_get step "selector")) (inr elements)
         :: map (elem_event i) (combine (firstn 50 elements) outs))
      w''.

(** [RunLog lib rt out i steps w recs evs w']: the loop of [page_action]
    over [steps], numbered from [i], on the page [w]. *)
Inductive RunLog {W Elem : Type} (lib : Library W Elem) (rt : Runtime)
    (output_dir : string)
  : nat -> list dict -> W -> list dict -> list (event Elem) -> W -> Prop :=
| RunNil (i : nat) (w : W) : RunLog lib rt output_dir i [] w [] [] w
| RunCons (i : nat) (step : dict) (rest : list dict) (w w' w'' : W)
    (rec : dict) (recs : list dict) (evs evs' : list (event Elem)) :
    StepLog lib rt output_dir i step w rec evs w' ->
    RunLog lib rt output_dir (S i) rest w' recs evs' w'' ->
    RunLog lib rt output_dir i (step :: rest) w (rec :: recs) (evs ++ evs') w''.

(** ** A small library, runtime and host to run the definitions on *)

Module Fixture.

Definition boom : exn := PyException "Timeout 30000ms exceeded.".

(** Every operation on the selector [#missing] raises. *)
Definition reply {T : Type} (selector : json) (v : T) : exn + T :=
  if Py.eq_str selector "#missing" then inl boom else inr v.

(** The page is the number of operations it has served; a locator is a
    number; the text of the locator [1] cannot be read. *)
Definition serve (T : Type) (op : LibOp nat T) (w : nat) : (exn + T) * nat :=
  (match op in LibOp _ T0 return exn + T0 with
   | Screenshot _ => inr tt
   | Click sel _ => reply sel tt
   | Fill sel _ _ => reply sel tt
   | TypeText sel _ _ => reply sel tt
   | Hover sel _ => reply sel tt
   | Press sel _ _ => reply sel tt
   | SelectOption sel _ _ => reply sel tt
   | Check sel _ => reply sel tt
   | Uncheck sel _ => reply sel tt
   | WaitForTimeout _ => inr tt
   | WaitForSelector sel _ => reply sel tt
   | WaitForUrl _ _ => inr tt
   | LocatorFirstInnerText sel => reply sel "Hello, world"
   | LocatorFirstGetAttribute sel _ => reply sel (Some "/next")
   | LocatorFirstInputValue sel => reply sel "typed"
   | LocatorAll sel => reply sel [0; 1; 2]%nat
   | ElemInnerText el => if Nat.eqb el 1 then inl boom else inr "  item  "
   | Evaluate _ => inr (JNum 42)
   | GoBack _ => inr tt
   | GoForward _ => inr tt
   | Reload _ => inr tt
   | LocatorScrollIntoViewIfNeeded sel => reply sel tt
   | Focus sel _ => reply sel tt
   | LocatorBlur sel => reply sel tt
   | DragAndDrop sel _ _ => reply sel tt
   | SetInputFiles sel _ _ => reply sel tt
   | PageUrl => inr "https://example.org/"
   | PageTitle => inr "Example Domain"
   end, S w).

Definition response : Response :=
  {| resp_url := Some (JString "https://example.org/"); resp_status := JNum 200 |}.

(** The stealthy fetcher calls the callback once; the dynamic fetcher
    calls it on a first page and again on a second one. *)
Definition lib : Library nat nat :=
  {| page_call := serve;
     stealthy_fetch := fun _ _ =>
       FetchPageAction 0%nat (fun _ _ => FetchDone (inr response));
     dynamic_fetch := fun _ _ =>
       FetchPageAction 0%nat (fun _ _ =>
         FetchPageAction 0%nat (fun _ _ => FetchDone (inr response)));
     fetcher_get := fun _ _ => inr response |}.

Definition quote (s : string) : string := "'" ++ s ++ "'".

Definition builtin_text (e : PyError) : string :=
  match e with
  | IntValueError s => "invalid literal for int() with base 10: " ++ quote s
  | IntTypeError _ => "int() argument must be a string or a number"
  | PathJoinTypeError _ => "unsupported operand type(s) for /"
  | PathTypeError _ => "expected str, bytes or os.PathLike object"
  | FloorDivTypeError _ => "unsupported operand type(s) for //"
  | NotIterable _ => "object is not iterable"
  | NoAttributeGet _ => "object has no attribute 'get'"
  | KeyError k => quote k
  | SubscriptTypeError _ => "object is not subscriptable"
  end.

(** A runtime that prints JSON the way it prints Python values. *)
Definition rt0 : Runtime :=
  {| int_max_str_digits := 4300;
     repr_str := quote;
     path_join := fun d f => d ++ "/" ++ f;
     builtin_error := builtin_text;
     json_dumps := fun _ _ => EmptyString;
     json_loads := fun s =>
       if String.eqb s "[]" then inr (JArray [])
       else inl (PyException "Expecting value") |}.

Definition rt : Runtime :=
  {| int_max_str_digits := int_max_str_digits rt0;
     repr_str := repr_str rt0;
     path_join := path_join rt0;
     builtin_error := builtin_error rt0;
     json_dumps := fun _ v => py_repr rt0 v;
     json_loads := json_loads rt0 |}.

Definition host : Host :=
  {| stdin_json := inr (JObject [("url", JString "https://example.org/")]);
     file_json := fun p =>
       if String.eqb p "config.json"
       then inr (JObject [("url", JString "https://example.org/");
                          ("method", JString "get")])
       else inl (PyException "No such file or directory");
     mkdir := fun _ => None;
     help_text := "usage: scrapling_executor.py [-h] [--url URL]" |}.

(** Sample steps: a click that succeeds, a click that times out, a
    listing whose second element cannot be read, a step without an
    action, a wait whose value is not a number, a text read. *)
Definition click_step : dict :=
  [("action", JString "click"); ("selector", JString "#go"); ("timeout", JNum 500)].

Definition failing_step : dict :=
  [("action", JString "click"); ("selector", JString "#missing")].

Definition list_step : dict :=
  [("action", JString "list_elements"); ("selector", JString ".item")].

Definition empty_step : dict := [].

Definition wait_step : dict := [("action", JString "wait"); ("value", JString "soon")].

Definition text_step : dict := [("action", JString "get_text"); ("selector", JString "h1")].

Definition steps : list dict :=
  [click_step; failing_step; list_step; empty_step; wait_step; text_step].

(** A config for the plain fetcher that nevertheless lists an action. *)
Definition get_config : dict :=
  [("url", JString "https://example.org/");
   ("method", JString "get");
   ("timeout", JNum 45999);
   ("actions", JArray [JObject click_step])].

(** A config for the stealthy fetcher. *)
Definition stealthy_config : dict :=
  [("url", JString "https://example.org/");
   ("actions", JArray (map JObject steps))].


(** The flags of [scrapling_executor.py --config '' --url https://example.org/]. *)
Definition flags_empty_config : Args :=
  {| arg_url := Some "https://example.org/";
     arg_actions := None;
     arg_method := MethodStealthyFetch;
     arg_headless := true;
     arg_no_headless := false;
     arg_timeout := 45000;
     arg_solve_cloudflare := false;
     arg_real_chrome := false;
     arg_network_idle := true;
     arg_output_dir := ".";
     arg_user_data_dir := None;
     arg_stdin := false;
     arg_config := Some EmptyString |}.

(** The flags of [scrapling_executor.py --config config.json]. *)
Definition flags_config : Args :=
  {| arg_url := None;
     arg_actions := None;
     arg_method := MethodStealthyFetch;
     arg_headless := true;
     arg_no_headless := false;
     arg_timeout := 45000;
     arg_solve_cloudflare := false;
     arg_real_chrome := false;
     arg_network_idle := true;
     arg_output_dir := ".";
     arg_user_data_dir := None;
     arg_stdin := false;
     arg_config := Some "config.json" |}.

End Fixture.

(** ** Vocabulary of the further properties *)

(** The keyword arguments that an operation was called with; [None] for an
    operation that takes none. *)
Definition op_opts {Elem T : Type} (op : LibOp Elem T) : option kwargs :=
  match op with
  | Click _ o | Fill _ _ o | TypeText _ _ o | Hover _ o | Press _ _ o
  | SelectOption _ _ o | Check _ o | Uncheck _ o | WaitForSelector _ o
  | WaitForUrl _ o | GoBack o | GoForward o | Reload o | Focus _ o
  | DragAndDrop _ _ o | SetInputFiles _ _ o => Some o
  | _ => None
  end.

Definition ev_opts {Elem : Type} (ev : event Elem) : option kwargs :=
  op_opts (fst (projT2 (ev_call ev))).

(** The url and the keyword arguments of a fetcher call. *)
Definition call_url (c : FetchCall) : json :=
  match c with
  | StealthyFetcherFetch url _ | DynamicFetcherFetch url _ | FetcherGet url _ => url
  end.

Definition call_kw (c : FetchCall) : fetch_kwargs :=
  match c with
  | StealthyFetcherFetch _ kw | DynamicFetcherFetch _ kw | FetcherGet _ kw => kw
  end.

(** Is the value a dict? *)
Definition is_dict (v : json) : bool :=
  match v with
  | JObject _ => true
  | _ => false
  end.

(** Does the text begin, or end, with a character that [strip] removes? *)
Definition starts_with_space (s : string) : bool :=
  match s with
  | String c _ => Py.is_space c
  | EmptyString => false
  end.

Fixpoint ends_with_space (s : string) : bool :=
  match s with
  | EmptyString => false
  | String c EmptyString => Py.is_space c
  | String _ s' => ends_with_space s'
  end.

(** The forms of the body of the [try], with what the single call of a
    step is given and what its record holds. *)
Inductive Branch {W Elem : Type} (lib : Library W Elem) (rt : Runtime)
    (output_dir : string) (i : nat) (step : dict) : Prop :=
| BranchUnknown :
    (forall s, dispatch lib rt output_dir i step s
               = append (unknown_record rt i (Py.dict_get step "action")) s) ->
    Branch lib rt output_dir i step
| BranchArgs (e : exn) :
    (forall s, dispatch lib rt output_dir i step s = (inl e, s)) ->
    Branch lib rt output_dir i step
| BranchCall (T : Type) (op : LibOp Elem T) (k : T -> dict) :
    (forall s, dispatch lib rt output_dir i step s
               = (x <- call lib i op ;;
                  append (record i (Py.dict_get step "action") "ok" (k x))) s) ->
    (forall x : T, dict_lookup (k x) "error" = None) ->
    match op_opts op with
    | Some o => o = opts_of (Py.dict_get step "timeout")
    | None => True
    end ->
    Branch lib rt output_dir i step
| BranchList :
    (forall s, dispatch lib rt output_dir i step s
               = (elements <- call lib i (LocatorAll (Py.dict_get step "selector")) ;;
                  texts <- collect_texts lib i (firstn 50 elements) [] ;;
                  append (record i (Py.dict_get step "action") "ok"
                            [("selector", Py.dict_get step "selector");
                             ("count", JNum (Z.of_nat (length elements)));
                             ("texts", JArray texts)])) s) ->
    Branch lib rt output_dir i step.

(** The record of a step tells a failure by its status alone. *)
Definition status_agrees (rec : dict) : Prop :=
  (dict_lookup rec "status" = Some (JString "ok") /\ dict_lookup rec "error" = None) \/
  (dict_lookup rec "status" = Some (JString "error") /\
   exists msg : string, dict_lookup rec "error" = Some (JString msg)).

(** The keyword arguments of a logged call are those made from the
    ['timeout'] of the step. *)
Definition opts_from {Elem : Type} (step : dict) (ev : event Elem) : Prop :=
  match ev_opts ev with
  | Some o => o = opts_of (Py.dict_get step "timeout")
  | None => True
  end.

(** Further sample inputs. *)
Module Sample.

(** An action list whose third entry is not a dict. *)
Definition broken_actions : json :=
  JArray [JObject Fixture.click_step; JObject Fixture.text_step; JNum 3;
          JObject Fixture.click_step].

(** A config without a url. *)
Definition no_url_config : json := JObject [("method", JString "get")].

(** A host whose stdin holds a config without a url. *)
Definition host_no_url : Host :=
  {| stdin_json := inr no_url_config;
     file_json := file_json Fixture.host;
     mkdir := mkdir Fixture.host;
     help_text := help_text Fixture.host |}.

(** A host whose stdin is not JSON. *)
Definition host_bad_stdin : Host :=
  {| stdin_json := inl (PyException "Expecting value");
     file_json := file_json Fixture.host;
     mkdir := mkdir Fixture.host;
     help_text := help_text Fixture.host |}.

(** The flags of [scrapling_executor.py --stdin]. *)
Definition flags_stdin : Args :=
  {| arg_url := None;
     arg_actions := None;
     arg_method := MethodStealthyFetch;
     arg_headless := true;
     arg_no_headless := false;
     arg_timeout := 45000;
     arg_solve_cloudflare := false;
     arg_real_chrome := false;
     arg_network_idle := true;
     arg_output_dir := ".";
     arg_user_data_dir := None;
     arg_stdin := true;
     arg_config := None |}.

(** The flags of [scrapling_executor.py --url https://example.org/ --method
    get --no-headless --timeout 30500 --solve-cloudflare]. *)
Definition flags_get : Args :=
  {| arg_url := Some "https://example.org/";
     arg_actions := None;
     arg_method := MethodGet;
     arg_headless := true;
     arg_no_headless := true;
     arg_timeout := 30500;
     arg_solve_cloudflare := true;
     arg_real_chrome := false;
     arg_network_idle := true;
     arg_output_dir := "shots";
     arg_user_data_dir := None;
     arg_stdin := false;
     arg_config := None |}.

(** A config for the dynamic fetcher that asks for the Cloudflare solver
    and a browser profile. *)
Definition dynamic_config : json :=
  JObject [("url", JString "https://example.org/");
           ("method", JString "fetch");
           ("solveCloudflare", JBool true);
           ("realChrome", JNum 1);
           ("userDataDir", JString "profile")].

(** A config whose method is not one of the three names. *)
Definition typo_config : json :=
  JObject [("url", JString "https://example.org/");
           ("method", JString "stealthy")].

Definition wait_zero_step : dict := [("action", JString "wait"); ("value", JNum 0)].

Definition wait_negative_step : dict := [("action", JString "wait"); ("value", JNum (-5))].

Definition click_no_timeout_step : dict :=
  [("action", JString "click"); ("selector", JString "#go"); ("timeout", JNum 0);
   ("force", JBool true)].

Definition wait_text_step : dict := [("action", JString "wait"); ("value", JString "0")].

Definition attribute_step : dict :=
  [("action", JString "get_attribute"); ("selector", JString "a.next")].

End Sample.

(** * Properties *)

Open Scope list_scope.

(** ** Strings *)

Lemma slice_to_length (n : nat) (s : string) : String.length (Py.slice_to n s) <= n.
Proof.
  revert s; induction n as [|n IH]; intros [|c s]; simpl; try lia.
  specialize (IH s); lia.
Qed.

Lemma lstrip_length (sp : ascii -> bool) (s : string) :
  String.length (Py.lstrip_by sp s) <= String.length s.
Proof.
  induction s as [|c s IH]; simpl; [lia|].
  destruct (sp c); simpl; lia.
Qed.

Lemma rstrip_length (sp : ascii -> bool) (s : string) :
  String.length (Py.rstrip_by sp s) <= String.length s.
Proof.
  induction s as [|c s IH]; simpl; [lia|].
  destruct (Py.rstrip_by sp s) as [|c' r]; [destruct (sp c)|]; simpl in *; lia.
Qed.

Lemma strip_length (s : string) : String.length (Py.strip s) <= String.length s.
Proof.
  unfold Py.strip.
  pose proof (rstrip_length Py.is_space (Py.lstrip_by Py.is_space s)).
  pose proof (lstrip_length Py.is_space s). lia.
Qed.

Lemma eq_str_true (v : json) (lit : string) : Py.eq_str v lit = true -> v = JString lit.
Proof.
  destruct v; simpl; try discriminate.
  intros H; apply String.eqb_eq in H; now subst.
Qed.

(** ** The chain of [dispatch] *)

Ltac literal_action Ha E :=
  apply eq_str_true in E; rewrite E in Ha.

Ltac chain_at Ha :=
  unfold dispatch; cbv zeta; rewrite <- Ha;
  cbn [Py.eq_str String.eqb Ascii.eqb Bool.eqb].

Ltac closed_tests Ha :=
  unfold args_ok, recognized, recognized_actions; cbv zeta; try rewrite <- Ha;
  reflexivity.

Ltac one_call Ha E :=
  literal_action Ha E;
  eapply ShapeCall;
  [ intros s; chain_at Ha; reflexivity
  | closed_tests Ha .. ].

Section Chain.
Context {W Elem : Type}.
Variable lib : Library W Elem.
Variable rt : Runtime.

Lemma dispatch_shape (output_dir : string) (i : nat) (step : dict) :
  Shape lib rt output_dir i step.
Proof.
  remember (Py.dict_get step "action") as action eqn:Ha.
  destruct (Py.eq_str action "screenshot") eqn:E1.
  { literal_action Ha E1.
    destruct (py_path_join rt output_dir
                (screenshot_name i (Py.dict_get step "filename"))) as [e|path] eqn:Ep.
    - apply (ShapeArgs lib rt output_dir i step e).
      + intros s; chain_at Ha. unfold bind, lift. rewrite Ep. reflexivity.
      + closed_tests Ha.
      + closed_tests Ha.
      + unfold args_ok; cbv zeta; rewrite <- Ha; cbn [Py.eq_str String.eqb Ascii.eqb Bool.eqb].
        rewrite Ep; reflexivity.
    - apply (ShapeCall lib rt output_dir i step unit (Screenshot path)
               (fun _ => [("path", JString path)])).
      + intros s; chain_at Ha. unfold bind at 1, lift. rewrite Ep. reflexivity.
      + closed_tests Ha.
      + closed_tests Ha.
      + unfold args_ok; cbv zeta; rewrite <- Ha; cbn [Py.eq_str String.eqb Ascii.eqb Bool.eqb].
        rewrite Ep; reflexivity.
      + reflexivity. }
  destruct (Py.eq_str action "click") eqn:E2; [one_call Ha E2|].
  destruct (Py.eq_str action "fill") eqn:E3; [one_call Ha E3|].
  destruct (Py.eq_str action "type") eqn:E4; [one_call Ha E4|].
  destruct (Py.eq_str action "hover") eqn:E5; [one_call Ha E5|].
  destruct (Py.eq_str action "press") eqn:E6; [one_call Ha E6|].
  destruct (Py.eq_str action "select") eqn:E7; [one_call Ha E7|].
  destruct (Py.eq_str action "check") eqn:E8; [one_call Ha E8|].
  destruct (Py.eq_str action "uncheck") eqn:E9; [one_call Ha E9|].
  destruct (Py.eq_str action "wait") eqn:E10.
  { literal_action Ha E10.
    destruct (if Py.truthy (Py.dict_get step "value")
              then py_int rt (Py.dict_get step "value") else inr 1000%Z)
      as [e|ms] eqn:Ems.
    - apply (ShapeArgs lib rt output_dir i step e).
      + intros s; chain_at Ha. unfold bind, lift. rewrite Ems. reflexivity.
      + closed_tests Ha.
      + closed_tests Ha.
      + unfold args_ok; cbv zeta; rewrite <- Ha; cbn [Py.eq_str String.eqb Ascii.eqb Bool.eqb].
        destruct (Py.truthy (Py.dict_get step "value")); [rewrite Ems; reflexivity|discriminate].
    - apply (ShapeCall lib rt output_dir i step unit (WaitForTimeout ms)
               (fun _ => [("ms", JNum ms)])).
      + intros s; chain_at Ha. unfold bind at 1, lift. rewrite Ems. reflexivity.
      + closed_tests Ha.
      + closed_tests Ha.
      + unfold args_ok; cbv zeta; rewrite <- Ha; cbn [Py.eq_str String.eqb Ascii.eqb Bool.eqb].
        destruct (Py.truthy (Py.dict_get step "value")); [rewrite Ems|]; reflexivity.
      + reflexivity. }
  destruct (Py.eq_str action "wait_selector") eqn:E11; [one_call Ha E11|].
  destruct (Py.eq_str action "wait_url") eqn:E12; [one_call Ha E12|].
  destruct (Py.eq_str action "get_text") eqn:E13; [one_call Ha E13|].
  destruct (Py.eq_str action "get_attribute") eqn:E14; [one_call Ha E14|].
  destruct (Py.eq_str action "get_value") eqn:E15; [one_call Ha E15|].
  destruct (Py.eq_str action "list_elements") eqn:E16.
  { literal_action Ha E16.
    apply ShapeList.
    - intros s; chain_at Ha; reflexivity.
    - closed_tests Ha.
    - closed_tests Ha.
    - closed_tests Ha. }
  destruct (Py.eq_str action "evaluate") eqn:E17; [one_call Ha E17|].
  destruct (Py.eq_str action "go_back") eqn:E18; [one_call Ha E18|].
  destruct (Py.eq_str action "go_forward") eqn:E19; [one_call Ha E19|].
  destruct (Py.eq_str action "reload") eqn:E20; [one_call Ha E20|].
  destruct (Py.eq_str action "scroll") eqn:E21; [one_call Ha E21|].
  destruct (Py.eq_str action "focus") eqn:E22; [one_call Ha E22|].
  destruct (Py.eq_str action "blur") eqn:E23; [one_call Ha E23|].
  destruct (Py.eq_str action "drag") eqn:E24; [one_call Ha E24|].
  destruct (Py.eq_str action "upload_file") eqn:E25; [one_call Ha E25|].
  destruct (Py.eq_str action "get_url") eqn:E26; [one_call Ha E26|].
  destruct (Py.eq_str action "get_title") eqn:E27; [one_call Ha E27|].
  apply ShapeUnknown.
  - intros s. unfold dispatch; cbv zeta; rewrite <- Ha.
    rewrite E1, E2, E3, E4, E5, E6, E7, E8, E9, E10, E11, E12, E13, E14, E15,
      E16, E17, E18, E19, E20, E21, E22, E23, E24, E25, E26, E27.
    reflexivity.
  - rewrite <- Ha. unfold recognized, recognized_actions; cbn [existsb].
    rewrite E1, E2, E3, E4, E5, E6, E7, E8, E9, E10, E11, E12, E13, E14, E15,
      E16, E17, E18, E19, E20, E21, E22, E23, E24, E25, E26, E27.
    reflexivity.
Qed.

End Chain.

(** ** One step *)

Section Steps.
Context {W Elem : Type}.
Variable lib : Library W Elem.
Variable rt : Runtime.

Lemma collect_texts_run (i : nat) (els : list Elem) :
  forall (texts : list json) (s : state W Elem),
  exists (outs : list (exn + string)) (w' : W),
    length outs = length els /\
    collect_texts lib i els texts s
    = (inr (texts ++ map text_of outs),
       {| page := w'; results := results s;
          trace := trace s ++ map (elem_event i) (combine els outs) |}).
Proof.
  induction els as [|el els IH]; intros texts s.
  - exists [], (page s). split; [reflexivity|].
    simpl. unfold ret. rewrite !app_nil_r. now destruct s.
  - simpl. unfold bind at 1, try_except, bind at 1, call.
    destruct (page_call lib string (ElemInnerText el) (page s)) as [[e|text] w1] eqn:Ec;
      cbn [ret];
      match goal with
      | |- context [collect_texts lib i els ?t ?s0] =>
          destruct (IH t s0) as (outs & w' & Hlen & Hrun); rewrite Hrun
      end;
      [exists (inl e :: outs), w' | exists (inr text :: outs), w'];
      (split; [simpl; lia|]);
      cbn [page results trace map combine text_of elem_event fst snd];
      unfold call_event; now rewrite <- !app_assoc.
Qed.

(** Every step returns normally, appends one record and logs its calls. *)
Lemma process_step_log (output_dir : string) (i : nat) (step : dict) (s : state W Elem) :
  exists (rec : dict) (evs : list (event Elem)) (w' : W),
    StepLog lib rt output_dir i step (page s) rec evs w' /\
    process_step lib rt output_dir i step s
    = (inr tt, {| page := w'; results := results s ++ [rec]; trace := trace s ++ evs |}).
Proof.
  unfold process_step, try_except.
  destruct (dispatch_shape lib rt output_dir i step) as
    [Hd Hrec | e Hd Hrec Hlist Hargs | T op k Hd Hrec Hlist Hargs Hop | Hd Hrec Hlist Hargs];
    rewrite Hd.
  - eexists _, [], (page s). split; [now apply LogUnknown|].
    unfold append. now rewrite app_nil_r.
  - eexists _, [], (page s). split; [now apply (LogArgs lib rt output_dir i step (page s) e)|].
    unfold append. cbn. now rewrite app_nil_r.
  - unfold bind, call.
    destruct (page_call lib T op (page s)) as [r w'] eqn:Ec.
    eexists _, _, w'. split.
    + now apply (LogCall lib rt output_dir i step (page s) T op k r w').
    + destruct r as [e|x]; reflexivity.
  - unfold bind at 1, call.
    destruct (page_call lib (list Elem) (LocatorAll (Py.dict_get step "selector")) (page s))
      as [[e|elements] w'] eqn:Ec.
    + eexists _, _, w'. split.
      * now apply (LogListFails lib rt output_dir i step (page s) e w').
      * reflexivity.
    + unfold bind at 1.
      destruct (collect_texts_run i (firstn 50 elements) []
                  {| page := w'; results := results s;
                     trace := trace s ++ [call_event i (LocatorAll (Py.dict_get step "selector"))
                                            (inr elements)] |})
        as (outs & w'' & Hlen & Hrun).
      unfold call_event in Hrun at 1. rewrite Hrun.
      eexists _, _, w''. split.
      * now apply (LogList lib rt output_dir i step (page s) elements w' outs w'').
      * unfold append. cbn [page results trace app]. now rewrite <- app_assoc.
Qed.

End Steps.

(** ** The loop *)

Section Loop.
Context {W Elem : Type}.
Variable lib : Library W Elem.
Variable rt : Runtime.
Variable output_dir : string.

Lemma run_steps_log (steps : list dict) :
  forall (i : nat) (s : state W Elem),
  exists (recs : list dict) (evs : list (event Elem)) (w' : W),
    RunLog lib rt output_dir i steps (page s) recs evs w' /\
    run_steps lib rt output_dir i (map JObject steps) s
    = (inr tt, {| page := w'; results := results s ++ recs; trace := trace s ++ evs |}).
Proof.
  induction steps as [|step rest IH]; intros i s.
  - exists [], [], (page s). split; [constructor|].
    simpl. unfold ret. rewrite !app_nil_r. now destruct s.
  - destruct (process_step_log lib rt output_dir i step s) as (rec & evs & w1 & Hlog & Hrun).
    destruct (IH (S i) {| page := w1; results := results s ++ [rec]; trace := trace s ++ evs |})
      as (recs & evs' & w2 & Hlogs & Hruns).
    exists (rec :: recs), (evs ++ evs'), w2. split.
    + econstructor; eassumption.
    + cbn [map run_steps]. unfold bind. rewrite Hrun, Hruns.
      cbn [page results trace]. now rewrite <- !app_assoc.
Qed.

(** [page_action] on a list of dicts returns [results]. *)
Lemma page_action_log (steps : list dict) (s : state W Elem) :
  exists (recs : list dict) (evs : list (event Elem)) (w' : W),
    RunLog lib rt output_dir 0 steps (page s) recs evs w' /\
    page_action lib rt (JArray (map JObject steps)) output_dir s
    = (inr (results s ++ recs),
       {| page := w'; results := results s ++ recs; trace := trace s ++ evs |}).
Proof.
  destruct (run_steps_log steps 0 s) as (recs & evs & w' & Hlog & Hrun).
  exists recs, evs, w'. split; [assumption|].
  unfold page_action. cbn [iter_items]. unfold bind. now rewrite Hrun.
Qed.

Lemma step_log_events (i : nat) (step : dict) (w w' : W) (rec : dict)
    (evs : list (event Elem)) :
  StepLog lib rt output_dir i step w rec evs w' ->
  Forall (fun ev => ev_step ev = i) evs.
Proof.
  intros H; inversion H; subst; repeat constructor.
  apply Forall_forall. intros ev Hin. apply in_map_iff in Hin.
  now destruct Hin as (p & <- & _).
Qed.

Lemma step_log_fields (i : nat) (step : dict) (w w' : W) (rec : dict)
    (evs : list (event Elem)) :
  StepLog lib rt output_dir i step w rec evs w' ->
  dict_lookup rec "step" = Some (JNum (Z.of_nat i)) /\
  dict_lookup rec "action" = Some (Py.dict_get step "action").
Proof.
  intros H; inversion H; subst; try (split; reflexivity).
  destruct r; split; reflexivity.
Qed.

Lemma run_log_length (i : nat) (steps : list dict) (w w' : W) (recs : list dict)
    (evs : list (event Elem)) :
  RunLog lib rt output_dir i steps w recs evs w' -> length recs = length steps.
Proof. induction 1; simpl; congruence. Qed.

Lemma run_log_events (i : nat) (steps : list dict) (w w' : W) (recs : list dict)
    (evs : list (event Elem)) :
  RunLog lib rt output_dir i steps w recs evs w' ->
  Forall (fun ev => i <= ev_step ev < i + length steps) evs.
Proof.
  induction 1 as [|i step rest w w1 w2 rec recs evs evs' Hstep Hrest IH]; [constructor|].
  apply Forall_app; split.
  - eapply Forall_impl; [|eapply step_log_events; eassumption].
    simpl; intros ev ->; lia.
  - eapply Forall_impl; [|exact IH]. simpl; intros ev ?; lia.
Qed.

Lemma events_of_all (i : nat) (evs : list (event Elem)) :
  Forall (fun ev => ev_step ev = i) evs -> events_of i evs = evs.
Proof.
  induction 1 as [|ev evs Hev _ IH]; [reflexivity|].
  unfold events_of in *; simpl. rewrite (proj2 (Nat.eqb_eq _ _) Hev). now rewrite IH.
Qed.

Lemma events_of_none (i : nat) (evs : list (event Elem)) :
  Forall (fun ev => ev_step ev <> i) evs -> events_of i evs = [].
Proof.
  induction 1 as [|ev evs Hev _ IH]; [reflexivity|].
  unfold events_of in *; simpl. now rewrite (proj2 (Nat.eqb_neq _ _) Hev).
Qed.

Lemma events_of_app (i : nat) (evs evs' : list (event Elem)) :
  events_of i (evs ++ evs') = events_of i evs ++ events_of i evs'.
Proof. apply filter_app. Qed.

(** The [j]-th step of a run: its record is the [j]-th one, and its
    events are those of the log that carry its index. *)
Lemma run_log_nth (i : nat) (steps : list dict) (w w' : W) (recs : list dict)
    (evs : list (event Elem)) :
  RunLog lib rt output_dir i steps w recs evs w' ->
  forall (j : nat) (step : dict),
    nth_error steps j = Some step ->
    exists (rec : dict) (w1 w2 : W),
      nth_error recs j = Some rec /\
      StepLog lib rt output_dir (i + j) step w1 rec (events_of (i + j) evs) w2.
Proof.
  induction 1 as [|i step0 rest w w1 w2 rec recs evs evs' Hstep Hrest IH];
    intros j step Hj.
  - destruct j; discriminate.
  - rewrite events_of_app. destruct j as [|j]; simpl in Hj.
    + injection Hj as <-. exists rec, w, w1. split; [reflexivity|].
      rewrite Nat.add_0_r.
      rewrite (events_of_all i evs) by (eapply step_log_events; eassumption).
      rewrite (events_of_none i evs'), app_nil_r; [assumption|].
      eapply Forall_impl; [|eapply run_log_events; eassumption]. simpl; intros; lia.
    + destruct (IH j step Hj) as (rec' & wa & wb & Hnth & Hlog).
      exists rec', wa, wb. split; [assumption|].
      replace (i + S j) with (S i + j) by lia.
      rewrite (events_of_none (S i + j) evs); [assumption|].
      eapply Forall_impl; [|eapply step_log_events; eassumption]. simpl; intros; lia.
Qed.

End Loop.

(** ** The claims on [page_action] *)

Section PageActionClaims.
Context {W Elem : Type}.
Variable lib : Library W Elem.
Variable rt : Runtime.




Lemma ev_error_call_event (T : Type) (i : nat) (op : LibOp Elem T) (r : exn + T) :
  ev_error (call_event i op r) = match r with inl e => Some e | inr _ => None end.
Proof. reflexivity. Qed.

Lemma in_elem_events (i : nat) (els : list Elem) (outs : list (exn + string))
    (ev : event Elem) :
  In ev (map (elem_event i) (combine els outs)) ->
  exists (el : Elem) (o : exn + string),
    ev = call_event i (ElemInnerText el) o /\ In o outs.
Proof.
  intros Hin. apply in_map_iff in Hin. destruct Hin as ([el o] & <- & Hin).
  exists el, o. split; [reflexivity|]. eapply in_combine_r; eassumption.
Qed.

(** What a raised exception of step [i] leaves in the record of the step. *)
Lemma step_log_failure (output_dir : string) (i : nat) (step : dict) (w w' : W)
    (rec : dict) (evs : list (event Elem)) (ev : event Elem) (e : exn) :
  StepLog lib rt output_dir i step w rec evs w' ->
  In ev evs ->
  ev_error ev = Some e ->
  if is_elem_text ev
  then dict_lookup rec "status" = Some (JString "ok") /\
       exists texts : list json,
         dict_lookup rec "texts" = Some (JArray texts) /\
         In (JString "[no text]") texts
  else rec = error_record i (Py.dict_get step "action") e.
Proof.
  intros Hlog Hin Herr.
  destruct Hlog as [Hrec | e0 Hrec Hlist Hargs | T op k r w' Hrec Hlist Hargs Hop Hcall
                   | e0 w' Hrec Hlist Hcall | elements w' outs w'' Hrec Hlist Hcall Hlen].
  - destruct Hin.
  - destruct Hin.
  - destruct Hin as [<-|[]].
    change (is_elem_text (call_event i op r)) with (op_is_elem_text op).
    rewrite Hop. rewrite ev_error_call_event in Herr.
    destruct r; [now injection Herr as ->|discriminate].
  - destruct Hin as [<-|[]]. cbn. rewrite ev_error_call_event in Herr.
    now injection Herr as ->.
  - destruct Hin as [<-|Hin]; [discriminate|].
    apply in_elem_events in Hin. destruct Hin as (el & o & -> & Hin).
    rewrite ev_error_call_event in Herr. cbn.
    split; [reflexivity|].
    exists (map text_of outs). split; [reflexivity|].
    destruct o as [e1|]; [|discriminate].
    change (JString "[no text]") with (text_of (inl e1)). now apply in_map.
Qed.

(** C1 (amended). For every action list and every step index [i]: if a
    library call made for step [i] raises an exception, then the record
    appended for the step is [{'step': i, 'action': <action>, 'status':
    'error', 'error': <message>}], unless the call is an [el.inner_text()]
    of the loop of [list_elements], whose failure becomes the entry
    ['[no text]'] of the ['texts'] of an ['ok'] record.  In every case
    [page_action] returns with one record per step: a failing step never
    aborts the remaining steps. *)
Theorem failing_call_is_recorded (steps : list dict) (output_dir : string) (pg : W) :
  exists s : state W Elem,
    page_action lib rt (JArray (map JObject steps)) output_dir (fresh pg)
    = (inr (results s), s) /\
    length (results s) = length steps /\
    forall (i : nat) (step : dict) (ev : event Elem) (e : exn),
      nth_error steps i = Some step ->
      In ev (events_of i (trace s)) ->
      ev_error ev = Some e ->
      exists rec : dict,
        nth_error (results s) i = Some rec /\
        if is_elem_text ev
        then dict_lookup rec "status" = Some (JString "ok") /\
             exists texts : list json,
               dict_lookup rec "texts" = Some (JArray texts) /\
               In (JString "[no text]") texts
        else rec = error_record i (Py.dict_get step "action") e.
Proof.
  destruct (page_action_log lib rt output_dir steps (fresh pg))
    as (recs & evs & w' & Hlog & Hrun).
  cbn [fresh results trace page app] in Hrun.
  exists {| page := w'; results := recs; trace := evs |}.
  cbn [results trace]. repeat split.
  - exact Hrun.
  - eapply run_log_length; eassumption.
  - intros i step ev e Hi Hin Herr.
    destruct (run_log_nth lib rt output_dir _ _ _ _ _ _ Hlog i step Hi)
      as (rec & w1 & w2 & Hnth & Hstep).
    exists rec. split; [assumption|].
    eapply step_log_failure; eassumption.
Qed.

(** The number of library operations of a step. *)
Lemma step_log_count (output_dir : string) (i : nat) (step : dict) (w w' : W)
    (rec : dict) (evs : list (event Elem)) :
  StepLog lib rt output_dir i step w rec evs w' ->
  recognized (Py.dict_get step "action") = true ->
  if Py.eq_str (Py.dict_get step "action") "list_elements"
  then match fst (page_call lib _ (LocatorAll (Py.dict_get step "selector")) w) with
       | inr elements => length evs = 1 + Nat.min 50 (length elements)
       | inl _ => length evs = 1
       end
  else if args_ok rt output_dir i step then length evs = 1 else evs = [].
Proof.
  intros Hlog Hknown.
  destruct Hlog as [Hrec | e0 Hrec Hlist Hargs | T op k r w' Hrec Hlist Hargs Hop Hcall
                   | e0 w' Hrec Hlist Hcall | elements w' outs w'' Hrec Hlist Hcall Hlen].
  - congruence.
  - now rewrite Hlist, Hargs.
  - now rewrite Hlist, Hargs.
  - now rewrite Hlist, Hcall.
  - rewrite Hlist, Hcall. cbn [fst length]. f_equal.
    rewrite length_map, length_combine, Hlen, length_firstn. lia.
Qed.

(** C4 (amended). For every step whose ['action'] is one of the recognized
    actions: a step other than [list_elements] invokes exactly one
    operation of the library, or none when its arguments raise before the
    call ([int(value)] of [wait], the path of [screenshot]); a
    [list_elements] step invokes the locator query once and, when the
    query succeeds, [inner_text] once for each of the first 50 elements. *)
Theorem recognized_step_operations (output_dir : string) (i : nat) (step : dict)
    (s : state W Elem) :
  recognized (Py.dict_get step "action") = true ->
  exists (s' : state W Elem) (evs : list (event Elem)),
    process_step lib rt output_dir i step s = (inr tt, s') /\
    trace s' = trace s ++ evs /\
    if Py.eq_str (Py.dict_get step "action") "list_elements"
    then match fst (page_call lib _ (LocatorAll (Py.dict_get step "selector")) (page s)) with
         | inr elements => length evs = 1 + Nat.min 50 (length elements)
         | inl _ => length evs = 1
         end
    else if args_ok rt output_dir i step then length evs = 1 else evs = [].
Proof.
  intros Hknown.
  destruct (process_step_log lib rt output_dir i step s) as (rec & evs & w' & Hlog & Hrun).
  eexists _, evs. split; [exact Hrun|]. split; [reflexivity|].
  eapply step_log_count; eassumption.
Qed.

(** The calls of one step: at most one is not an [el.inner_text()]; if it
    raised, it is the only call; the [el.inner_text()] calls are one per
    element of the first 50 that the locator query returned. *)
Lemma step_log_once (output_dir : string) (i : nat) (step : dict) (w w' : W)
    (rec : dict) (evs : list (event Elem)) :
  StepLog lib rt output_dir i step w rec evs w' ->
  length (filter (fun ev => negb (is_elem_text ev)) evs) <= 1 /\
  (forall ev : event Elem,
      In ev evs -> is_elem_text ev = false -> raised ev = true -> evs = [ev]) /\
  exists (elements : list Elem) (outs : list (exn + string)),
    length outs = length (firstn 50 elements) /\
    filter is_elem_text evs = map (elem_event i) (combine (firstn 50 elements) outs) /\
    (outs <> [] ->
     exists selector : json,
       hd_error evs = Some (call_event i (LocatorAll selector) (inr elements))).
Proof.
  intros Hlog.
  destruct Hlog as [Hrec | e0 Hrec Hlist Hargs | T op k r w' Hrec Hlist Hargs Hop Hcall
                   | e0 w' Hrec Hlist Hcall | elements w' outs w'' Hrec Hlist Hcall Hlen].
  - split; [simpl; lia|]. split; [intros ev []|].
    exists [], []. repeat split. intros H; now elim H.
  - split; [simpl; lia|]. split; [intros ev []|].
    exists [], []. repeat split. intros H; now elim H.
  - assert (Hev : is_elem_text (call_event i op r) = false) by exact Hop.
    split; [simpl; rewrite Hev; simpl; lia|].
    split; [intros ev [<-|[]] _ _; reflexivity|].
    exists [], []. simpl. rewrite Hev. repeat split. intros H; now elim H.
  - split; [simpl; lia|].
    split; [intros ev [<-|[]] _ _; reflexivity|].
    exists [], []. repeat split. intros H; now elim H.
  - assert (Hall : forall l : list (Elem * (exn + string)),
               filter is_elem_text (map (elem_event i) l) = map (elem_event i) l).
    { induction l as [|p l IH]; [reflexivity|]. simpl. now rewrite IH. }
    assert (Hnone : forall l : list (Elem * (exn + string)),
               filter (fun ev => negb (is_elem_text ev)) (map (elem_event i) l) = []).
    { induction l as [|p l IH]; [reflexivity|]. simpl. exact IH. }
    split; [simpl; rewrite Hnone; simpl; lia|].
    split.
    + intros ev [<-|Hin] Hel Hr; [discriminate|].
      apply in_elem_events in Hin. destruct Hin as (el & o & -> & _). discriminate.
    + exists elements, outs. split; [assumption|]. split.
      * simpl. apply Hall.
      * intros _. eexists; reflexivity.
Qed.

(** C7. For every step of a pass of [page_action] over the action list:
    the library operation of the step is invoked at most once; when it
    raises, no further operation is invoked for the step (no retry, no
    repeated attempt); and the only other operations of a step, the
    [el.inner_text()] calls of [list_elements], are invoked once per
    element of the first 50 elements the locator query returned, whether
    or not they raise. *)
Theorem no_step_is_retried (steps : list dict) (output_dir : string)
    (s : state W Elem) (i : nat) (step : dict) :
  nth_error steps i = Some step ->
  exists (s' : state W Elem) (evs : list (event Elem)),
    page_action lib rt (JArray (map JObject steps)) output_dir s = (inr (results s'), s') /\
    trace s' = trace s ++ evs /\
    length (filter (fun ev => negb (is_elem_text ev)) (events_of i evs)) <= 1 /\
    (forall ev : event Elem,
        In ev (events_of i evs) -> is_elem_text ev = false -> raised ev = true ->
        events_of i evs = [ev]) /\
    exists (elements : list Elem) (outs : list (exn + string)),
      length outs = length (firstn 50 elements) /\
      filter is_elem_text (events_of i evs)
      = map (elem_event i) (combine (firstn 50 elements) outs) /\
      (outs <> [] ->
       exists selector : json,
         hd_error (events_of i evs)
         = Some (call_event i (LocatorAll selector) (inr elements))).
Proof.
  intros Hi.
  destruct (page_action_log lib rt output_dir steps s) as (recs & evs & w' & Hlog & Hrun).
  exists {| page := w'; results := results s ++ recs; trace := trace s ++ evs |}, evs.
  split; [exact Hrun|]. split; [reflexivity|].
  destruct (run_log_nth lib rt output_dir _ _ _ _ _ _ Hlog i step Hi)
    as (rec & w1 & w2 & Hnth & Hstep).
  exact (step_log_once _ _ _ _ _ _ _ Hstep).
Qed.

(** C8 (amended). For every step whose ['action'] is not one of the
    recognized action names (a missing ['action'] key reads as [None]):
    no library operation is invoked for the step, the record [{'step': i,
    'action': <action>, 'status': 'error', 'error': 'Unknown action:
    <action>'}] is appended, and execution continues with the next step. *)
Theorem unknown_action_is_recorded (output_dir : string) (i : nat) (step : dict)
    (rest : list json) (s : state W Elem) :
  recognized (Py.dict_get step "action") = false ->
  let s' :=
    {| page := page s;
       results :=
         results s ++
         [[("step", JNum (Z.of_nat i));
           ("action", Py.dict_get step "action");
           ("status", JString "error");
           ("error", JString ("Unknown action: " ++ py_str rt (Py.dict_get step "action"))%string)]];
       trace := trace s |} in
  process_step lib rt output_dir i step s = (inr tt, s') /\
  run_steps lib rt output_dir i (JObject step :: rest) s
  = run_steps lib rt output_dir (S i) rest s'.
Proof.
  intros Hunknown s'.
  assert (Hrun : process_step lib rt output_dir i step s = (inr tt, s')).
  { destruct (process_step_log lib rt output_dir i step s) as (rec & evs & w' & Hlog & Hrun).
    rewrite Hrun. subst s'.
    destruct Hlog as [Hrec | e0 Hrec Hlist Hargs | T op k r w' Hrec Hlist Hargs Hop Hcall
                     | e0 w' Hrec Hlist Hcall | elements w' outs w'' Hrec Hlist Hcall Hlen];
      try congruence.
    now rewrite app_nil_r. }
  split; [exact Hrun|].
  cbn [run_steps]. unfold bind. now rewrite Hrun.
Qed.


Ltac branch_of Ha :=
  unfold process_step, try_except, dispatch; cbv zeta; rewrite Ha;
  cbn [Py.eq_str String.eqb Ascii.eqb Bool.eqb]; unfold bind, call.

Lemma get_text_step (output_dir : string) (i : nat) (step : dict) (s : state W Elem) :
  Py.eq_str (Py.dict_get step "action") "get_text" = true ->
  process_step lib rt output_dir i step s
  = let (r, w') :=
      page_call lib _ (LocatorFirstInnerText (Py.dict_get step "selector")) (page s) in
    (inr tt,
     {| page := w';
        results :=
          results s ++
          [match r with
           | inr text =>
               record i (JString "get_text") "ok"
                 [("selector", Py.dict_get step "selector");
                  ("text", JString (Py.slice_to 1000 text))]
           | inl e => error_record i (JString "get_text") e
           end];
        trace :=
          trace s ++
          [call_event i (LocatorFirstInnerText (Py.dict_get step "selector")) r] |}).
Proof.
  intros Ha. apply eq_str_true in Ha. branch_of Ha.
  destruct (page_call lib string (LocatorFirstInnerText (Py.dict_get step "selector")) (page s))
    as [[e|text] w']; reflexivity.
Qed.

Lemma evaluate_step (output_dir : string) (i : nat) (step : dict) (s : state W Elem) :
  Py.eq_str (Py.dict_get step "action") "evaluate" = true ->
  process_step lib rt output_dir i step s
  = let (r, w') := page_call lib _ (Evaluate (Py.dict_get step "value")) (page s) in
    (inr tt,
     {| page := w';
        results :=
          results s ++
          [match r with
           | inr result =>
               record i (JString "evaluate") "ok"
                 [("result", JString (Py.slice_to 1000 (py_str rt result)))]
           | inl e => error_record i (JString "evaluate") e
           end];
        trace := trace s ++ [call_event i (Evaluate (Py.dict_get step "value")) r] |}).
Proof.
  intros Ha. apply eq_str_true in Ha. branch_of Ha.
  destruct (page_call lib json (Evaluate (Py.dict_get step "value")) (page s))
    as [[e|result] w']; reflexivity.
Qed.

Lemma text_of_bounded (o : exn + string) :
  exists str : string, text_of o = JString str /\ String.length str <= 200.
Proof.
  destruct o as [e|t]; cbn [text_of].
  - eexists; split; [reflexivity|]. cbn [String.length]; lia.
  - eexists; split; [reflexivity|].
    pose proof (strip_length (Py.slice_to 200 t)).
    pose proof (slice_to_length 200 t). lia.
Qed.

(** C10. The recorded outputs are bounded: the ['text'] of a [get_text]
    result and the ['result'] of an [evaluate] result hold at most 1000
    characters (the first 1000 of what the library returned); the
    ['texts'] of a [list_elements] result has at most 50 entries of at
    most 200 characters each, and its ['count'] is the full number of
    matched elements. *)
Theorem recorded_outputs_are_bounded (output_dir : string) (i : nat) (step : dict)
    (s : state W Elem) :
  exists (rec : dict) (s' : state W Elem),
    process_step lib rt output_dir i step s = (inr tt, s') /\
    results s' = results s ++ [rec] /\
    (Py.eq_str (Py.dict_get step "action") "get_text" = true ->
     match fst (page_call lib _ (LocatorFirstInnerText (Py.dict_get step "selector"))
                  (page s)) with
     | inr text =>
         exists t : string,
           dict_lookup rec "text" = Some (JString t) /\
           t = Py.slice_to 1000 text /\ String.length t <= 1000
     | inl _ => dict_lookup rec "text" = None
     end) /\
    (Py.eq_str (Py.dict_get step "action") "evaluate" = true ->
     match fst (page_call lib _ (Evaluate (Py.dict_get step "value")) (page s)) with
     | inr result =>
         exists t : string,
           dict_lookup rec "result" = Some (JString t) /\
           t = Py.slice_to 1000 (py_str rt result) /\ String.length t <= 1000
     | inl _ => dict_lookup rec "result" = None
     end) /\
    (Py.eq_str (Py.dict_get step "action") "list_elements" = true ->
     match fst (page_call lib _ (LocatorAll (Py.dict_get step "selector")) (page s)) with
     | inr elements =>
         dict_lookup rec "count" = Some (JNum (Z.of_nat (length elements))) /\
         exists texts : list json,
           dict_lookup rec "texts" = Some (JArray texts) /\
           length texts = Nat.min 50 (length elements) /\
           length texts <= 50 /\
           Forall (fun t => exists str : string,
                       t = JString str /\ String.length str <= 200) texts
     | inl _ => dict_lookup rec "count" = None /\ dict_lookup rec "texts" = None
     end).
Proof.
  destruct (process_step_log lib rt output_dir i step s) as (rec & evs & w' & Hlog & Hrun).
  exists rec, {| page := w'; results := results s ++ [rec]; trace := trace s ++ evs |}.
  split; [exact Hrun|]. split; [reflexivity|]. repeat split.
  - intros Ha. rewrite (get_text_step _ _ _ _ Ha) in Hrun.
    destruct (page_call lib string (LocatorFirstInnerText (Py.dict_get step "selector"))
                (page s)) as [[e|text] w1];
      apply (f_equal (fun p => results (snd p))) in Hrun; cbn [snd results] in Hrun;
      apply app_inj_tail in Hrun; destruct Hrun as [_ <-]; cbn [fst].
    + reflexivity.
    + eexists. split; [reflexivity|]. split; [reflexivity|]. apply slice_to_length.
  - intros Ha. rewrite (evaluate_step _ _ _ _ Ha) in Hrun.
    destruct (page_call lib json (Evaluate (Py.dict_get step "value")) (page s))
      as [[e|result] w1];
      apply (f_equal (fun p => results (snd p))) in Hrun; cbn [snd results] in Hrun;
      apply app_inj_tail in Hrun; destruct Hrun as [_ <-]; cbn [fst].
    + reflexivity.
    + eexists. split; [reflexivity|]. split; [reflexivity|]. apply slice_to_length.
  - intros Ha.
    destruct Hlog as [Hrec | e0 Hrec Hlist Hargs | T op k r w1 Hrec Hlist Hargs Hop Hcall
                     | e0 w1 Hrec Hlist Hcall | elements w1 outs w2 Hrec Hlist Hcall Hlen];
      try congruence.
    + apply eq_str_true in Ha. rewrite Ha in Hrec. discriminate.
    + rewrite Hcall. split; reflexivity.
    + rewrite Hcall. cbn [fst]. split; [reflexivity|].
      exists (map text_of outs). split; [reflexivity|].
      rewrite length_map, Hlen, length_firstn.
      split; [reflexivity|]. split; [lia|].
      apply Forall_map, Forall_forall. intros o _. apply text_of_bounded.
Qed.

End PageActionClaims.

(** ** The claims on [execute] *)

Section ExecuteClaims.
Context {W Elem : Type}.
Variable lib : Library W Elem.
Variable rt : Runtime.
Variable host : Host.

(** Each call of the callback adds one record per step to [results]. *)
Lemma run_fetch_count (steps : list dict) (output_dir : string) (run : FetchRun W) :
  forall (res : list dict) (tr : list (event Elem)) (p : nat)
         (r : exn + Response) (res' : list dict) (tr' : list (event Elem)) (p' : nat),
    run_fetch (page_action lib rt (JArray (map JObject steps)) output_dir) run res tr p
    = (r, (res', tr', p')) ->
    p <= p' /\ length res' = length res + (p' - p) * length steps.
Proof.
  induction run as [r0|pg k IH]; intros res tr p r res' tr' p' Hrun.
  - cbn in Hrun. injection Hrun as _ <- _ <-. split; [lia|].
    rewrite Nat.sub_diag. lia.
  - cbn [run_fetch] in Hrun.
    destruct (page_action_log lib rt output_dir steps
                {| page := pg; results := res; trace := tr |})
      as (recs & evs & w' & Hlog & Hpa).
    rewrite Hpa in Hrun. cbn [page results trace] in Hrun.
    apply IH in Hrun. destruct Hrun as [Hle Hlen].
    split; [lia|].
    rewrite Hlen, length_app, (run_log_length _ _ _ _ _ _ _ _ _ Hlog).
    replace (p' - p) with (S (p' - S p)) by lia. simpl. lia.
Qed.

Lemma fetch_with_actions_result (call : FetchCall) (run : FetchRun W)
    (url method actions : json) (output_dir : string) (d : dict) :
  ex_result (fetch_with_actions call run url method
               (page_action lib rt actions output_dir) (fun results => results)) = inr d ->
  exists (response : Response) (recs : list dict),
    d = result_dict url method response recs /\
    forall steps : list dict,
      actions = JArray (map JObject steps) ->
      length recs
      = ex_passes (fetch_with_actions call run url method
                     (page_action lib rt actions output_dir) (fun results => results))
        * length steps.
Proof.
  unfold fetch_with_actions.
  destruct (run_fetch (page_action lib rt actions output_dir) run [] [] 0)
    as [r [[res tr] passes]] eqn:Hrun.
  cbn [ex_result ex_passes]. destruct r as [e|response]; [discriminate|].
  intros Hd. injection Hd as <-.
  exists response, res. split; [reflexivity|].
  intros steps ->. apply run_fetch_count in Hrun. destruct Hrun as [_ Hlen].
  simpl in Hlen. now rewrite Nat.sub_0_r in Hlen.
Qed.

(** C2 (amended). For every config on which [execute] succeeds, [execute]
    returns a dict with the keys ['url'], ['finalUrl'], ['status'],
    ['method'] and ['actions'], holding the requested url, the url and the
    status of the response, the method and the per-step result list.  When
    the method is neither ['stealthy-fetch'] nor ['fetch'] the list is
    empty; otherwise, for an action list of dicts, it holds one record per
    action for each call the fetcher made of [page_action] (exactly one per
    action when the callback is called once). *)
Theorem execute_returns_fetch_outcome (config : json) (d : dict) :
  execute lib rt host config = inr d ->
  exists (cfg : dict) (url : json) (response : Response) (recs : list dict),
    config = JObject cfg /\
    dict_lookup cfg "url" = Some url /\
    d = [("url", url);
         ("finalUrl", match resp_url response with Some u => u | None => url end);
         ("status", resp_status response);
         ("method", Py.dict_get_default cfg "method" (JString "stealthy-fetch"));
         ("actions", JArray (map JObject recs))] /\
    (Py.eq_str (Py.dict_get_default cfg "method" (JString "stealthy-fetch"))
       "stealthy-fetch" = false ->
     Py.eq_str (Py.dict_get_default cfg "method" (JString "stealthy-fetch")) "fetch" = false ->
     recs = []) /\
    forall steps : list dict,
      Py.dict_get_default cfg "actions" (JArray []) = JArray (map JObject steps) ->
      length recs = ex_passes (execute_traced lib rt host config) * length steps.
Proof.
  unfold execute, execute_traced.
  destruct config as [| | | |items|cfg]; try discriminate.
  destruct (dict_lookup cfg "url") as [url|] eqn:Hurl; [|discriminate].
  cbv zeta.
  destruct (Py.dict_get_default cfg "outputDir" (JString ".")) as [| | |output_dir| |];
    try discriminate.
  destruct (mkdir host output_dir) as [e|]; [discriminate|].
  unfold create_page_action.
  set (method := Py.dict_get_default cfg "method" (JString "stealthy-fetch")).
  destruct (Py.eq_str method "stealthy-fetch") eqn:Hm1;
    [|destruct (Py.eq_str method "fetch") eqn:Hm2].
  - intros Hd. apply fetch_with_actions_result in Hd.
    destruct Hd as (response & recs & -> & Hlen).
    exists cfg, url, response, recs.
    split; [reflexivity|]. split; [exact Hurl|]. split; [reflexivity|].
    split; [subst method; congruence|exact Hlen].
  - intros Hd. apply fetch_with_actions_result in Hd.
    destruct Hd as (response & recs & -> & Hlen).
    exists cfg, url, response, recs.
    split; [reflexivity|]. split; [exact Hurl|]. split; [reflexivity|].
    split; [subst method; congruence|exact Hlen].
  - destruct (py_floordiv_1000 rt (Py.dict_get_default cfg "timeout" (JNum 45000)))
      as [e|seconds]; [discriminate|].
    cbn [ex_result ex_passes].
    match goal with
    | |- context [fetcher_get lib url ?kw] =>
        destruct (fetcher_get lib url kw) as [e|response]; [discriminate|]
    end.
    intros Hd. injection Hd as <-.
    exists cfg, url, response, [].
    split; [reflexivity|]. split; [exact Hurl|]. split; [reflexivity|].
    split; reflexivity.
Qed.

(** C9. When the configured method is neither ['stealthy-fetch'] nor
    ['fetch'], [execute] calls [Fetcher.get] with keyword arguments from
    which ['page_action'] and ['network_idle'] were removed and whose
    ['timeout'] is the configured timeout divided by 1000 (integer
    division); [page_action] is never called, no page operation is
    invoked, and the ['actions'] of the returned dict is the empty list,
    whatever actions the config supplies. *)
Theorem other_method_runs_no_action (cfg : dict) (url : json) (t : Z)
    (output_dir : string) :
  dict_lookup cfg "url" = Some url ->
  Py.eq_str (Py.dict_get_default cfg "method" (JString "stealthy-fetch"))
    "stealthy-fetch" = false ->
  Py.eq_str (Py.dict_get_default cfg "method" (JString "stealthy-fetch")) "fetch" = false ->
  Py.dict_get_default cfg "timeout" (JNum 45000) = JNum t ->
  Py.dict_get_default cfg "outputDir" (JString ".") = JString output_dir ->
  mkdir host output_dir = None ->
  exists kw : fetch_kwargs,
    ex_fetch (execute_traced lib rt host (JObject cfg)) = Some (FetcherGet url kw) /\
    kw_has kw "page_action" = false /\
    kw_has kw "network_idle" = false /\
    kw_get kw "timeout" = Some (KwValue (JNum (t / 1000))) /\
    ex_passes (execute_traced lib rt host (JObject cfg)) = 0 /\
    ex_trace (execute_traced lib rt host (JObject cfg)) = [] /\
    forall d : dict,
      execute lib rt host (JObject cfg) = inr d ->
      dict_lookup d "actions" = Some (JArray []).
Proof.
  intros Hurl Hm1 Hm2 Ht Hout Hmk.
  unfold execute, execute_traced. rewrite Hurl. cbv zeta.
  rewrite Hout, Hmk. unfold create_page_action. rewrite Hm1, Hm2, Ht.
  cbn [py_floordiv_1000].
  destruct (Py.truthy (Py.dict_get_default cfg "realChrome" (JBool false)));
    destruct (Py.truthy (Py.dict_get cfg "userDataDir"));
    (eexists; split; [reflexivity|]; repeat split;
     intros d Hd; cbn [ex_result] in Hd;
     match type of Hd with
     | context [fetcher_get lib url ?kw] =>
         destruct (fetcher_get lib url kw) as [e|response]; [discriminate|]
     end;
     injection Hd as <-; reflexivity).
Qed.

End ExecuteClaims.

(** ** The claims on [main] *)

Section MainClaims.
Context {W Elem : Type}.
Variable lib : Library W Elem.
Variable rt : Runtime.
Variable host : Host.

Lemma given_some (p : string) : p <> EmptyString -> given (Some p) = true.
Proof.
  intros Hp. unfold given. destruct (String.eqb_spec p ""); [contradiction|reflexivity].
Qed.

(** C5 (amended). The configuration is taken from exactly one of three
    sources with fixed precedence, where an option counts as given when
    its value is not the empty string: with [--stdin], the JSON config is
    read from stdin; otherwise with [--config], from that JSON file;
    otherwise with [--url], it is built from the flags; and when none of
    the three is given, the program prints the help and exits with
    status 1. *)
Theorem config_source_precedence (args : Args) :
  (arg_stdin args = true -> load_config rt host args = Some (stdin_json host)) /\
  (forall p : string,
      arg_stdin args = false -> arg_config args = Some p -> p <> EmptyString ->
      load_config rt host args = Some (file_json host p)) /\
  (forall u : string,
      arg_stdin args = false -> given (arg_config args) = false ->
      arg_url args = Some u -> u <> EmptyString ->
      load_config rt host args = Some (config_of_flags rt args u)) /\
  (arg_stdin args = false -> given (arg_config args) = false ->
   given (arg_url args) = false ->
   load_config rt host args = None /\
   main lib rt host args
   = {| stdout := [help_text host]; stderr := []; ending := SysExit 1 |} /\
   exit_status (ending (main lib rt host args)) = 1%Z).
Proof.
  unfold main, load_config.
  split; [now intros ->|].
  split; [intros p -> -> Hp; now rewrite (given_some p Hp)|].
  split; [intros u -> -> -> Hu; now rewrite (given_some u Hu)|].
  intros -> -> ->. repeat split.
Qed.


End MainClaims.

(** ** The claims on a concrete library *)


(** C1, as stated, fails on the sample library: the [inner_text] of the
    second element of a [list_elements] step raises, and the record of the
    step is not an error record. *)
Lemma failing_element_is_not_an_error_record :
  let steps := [Fixture.list_step] in
  let s := snd (page_action Fixture.lib Fixture.rt (JArray (map JObject steps)) "out"
                  (fresh 0)) in
  ~ (forall (i : nat) (step : dict) (ev : event nat) (e : exn),
        nth_error steps i = Some step ->
        In ev (events_of i (trace s)) ->
        ev_error ev = Some e ->
        nth_error (results s) i = Some (error_record i (Py.dict_get step "action") e)).
Proof.
  intros steps s H.
  specialize (H 0 Fixture.list_step
                (call_event 0 (ElemInnerText 1) (inl Fixture.boom)) Fixture.boom eq_refl).
  assert (Hin : In (call_event 0 (ElemInnerText 1) (inl Fixture.boom))
                  (events_of 0 (trace s))).
  { vm_compute. right. right. left. reflexivity. }
  specialize (H Hin eq_refl). vm_compute in H. discriminate H.
Qed.

(** C1 (amended) on the sample steps: the click that times out. *)
Lemma failing_call_is_recorded_witness :
  exists s : state nat nat,
    page_action Fixture.lib Fixture.rt (JArray (map JObject Fixture.steps)) "out" (fresh 0)
    = (inr (results s), s) /\
    length (results s) = 6 /\
    nth_error (results s) 1
    = Some [("step", JNum 1); ("action", JString "click"); ("status", JString "error");
            ("error", JString "Timeout 30000ms exceeded.")].
Proof.
  destruct (failing_call_is_recorded Fixture.lib Fixture.rt Fixture.steps "out" 0)
    as (s & Hrun & Hlen & Hfail).
  exists s. split; [exact Hrun|]. split; [exact Hlen|].
  assert (Hs : s = snd (page_action Fixture.lib Fixture.rt
                          (JArray (map JObject Fixture.steps)) "out" (fresh 0)))
    by now rewrite Hrun.
  destruct (Hfail 1 Fixture.failing_step
              (call_event 1 (Click (JString "#missing") []) (inl Fixture.boom))
              Fixture.boom eq_refl) as (rec & Hnth & Hrec).
  - rewrite Hs. vm_compute. left. reflexivity.
  - reflexivity.
  - rewrite Hnth. cbn in Hrec. now rewrite Hrec.
Defined.

(** C4, as stated, fails: a [list_elements] step on three elements invokes
    four operations of the library. *)
Lemma list_elements_invokes_several_operations :
  ~ (recognized (Py.dict_get Fixture.list_step "action") = true ->
     length (trace (snd (process_step Fixture.lib Fixture.rt "out" 0 Fixture.list_step
                           (fresh 0)))) = 1).
Proof.
  intros H. specialize (H eq_refl). vm_compute in H. discriminate H.
Qed.

(** C4 (amended) on the sample [list_elements] step. *)
Lemma recognized_step_operations_witness :
  recognized (Py.dict_get Fixture.list_step "action") = true /\
  exists (s' : state nat nat) (evs : list (event nat)),
    process_step Fixture.lib Fixture.rt "out" 0 Fixture.list_step (fresh 0) = (inr tt, s') /\
    trace s' = evs /\
    length evs = 4.
Proof.
  split; [reflexivity|].
  destruct (recognized_step_operations Fixture.lib Fixture.rt "out" 0 Fixture.list_step
              (fresh 0) eq_refl) as (s' & evs & Hrun & Htrace & Hcount).
  exists s', evs. split; [exact Hrun|]. split; [exact Htrace|]. exact Hcount.
Defined.

(** C7 on the sample steps: the click that times out is invoked once. *)
Lemma no_step_is_retried_witness :
  nth_error Fixture.steps 1 = Some Fixture.failing_step /\
  exists (s' : state nat nat) (evs : list (event nat)),
    page_action Fixture.lib Fixture.rt (JArray (map JObject Fixture.steps)) "out" (fresh 0)
    = (inr (results s'), s') /\
    trace s' = evs /\
    length (filter (fun ev => negb (is_elem_text ev)) (events_of 1 evs)) <= 1.
Proof.
  split; [reflexivity|].
  destruct (no_step_is_retried Fixture.lib Fixture.rt Fixture.steps "out" (fresh 0) 1
              Fixture.failing_step eq_refl) as (s' & evs & Hrun & Htrace & Honce & _).
  exists s', evs. split; [exact Hrun|]. split; [exact Htrace|]. exact Honce.
Defined.

(** C8, as stated, fails: the record of a step without an action has four
    keys, ['action'] among them. *)
Lemma unknown_action_record_has_action :
  ~ (recognized (Py.dict_get Fixture.empty_step "action") = false ->
     results (snd (process_step Fixture.lib Fixture.rt "out" 0 Fixture.empty_step (fresh 0)))
     = [[("step", JNum 0); ("status", JString "error");
         ("error", JString "Unknown action: None")]]).
Proof.
  intros H. specialize (H eq_refl). vm_compute in H. discriminate H.
Qed.

(** C8 (amended) on a step without an action. *)
Lemma unknown_action_is_recorded_witness :
  recognized (Py.dict_get Fixture.empty_step "action") = false /\
  process_step Fixture.lib Fixture.rt "out" 0 Fixture.empty_step (fresh 0)
  = (inr tt,
     {| page := 0;
        results := [[("step", JNum 0); ("action", JNull); ("status", JString "error");
                     ("error", JString "Unknown action: None")]];
        trace := [] |}).
Proof.
  split; [reflexivity|].
  exact (proj1 (unknown_action_is_recorded Fixture.lib Fixture.rt "out" 0 Fixture.empty_step
                  [] (fresh 0) eq_refl)).
Defined.

(** C10 on the sample [get_text] step. *)
Lemma recorded_outputs_are_bounded_witness :
  Py.eq_str (Py.dict_get Fixture.text_step "action") "get_text" = true /\
  exists (rec : dict) (t : string),
    dict_lookup rec "text" = Some (JString t) /\ String.length t <= 1000.
Proof.
  split; [reflexivity|].
  destruct (recorded_outputs_are_bounded Fixture.lib Fixture.rt "out" 5 Fixture.text_step
              (fresh 0)) as (rec & s' & _ & _ & Htext & _).
  destruct (Htext eq_refl) as (t & Hrec & _ & Hlen).
  exists rec, t. split; [exact Hrec|exact Hlen].
Defined.

(** C2, as stated, fails: with the method ['get'] the config lists one
    action and the result holds no record. *)
Lemma get_method_returns_no_record :
  ~ (forall d : dict,
        execute Fixture.lib Fixture.rt Fixture.host (JObject Fixture.get_config) = inr d ->
        exists recs : list json,
          dict_lookup d "actions" = Some (JArray recs) /\
          length recs = length [Fixture.click_step]).
Proof.
  intros H. destruct (H _ eq_refl) as (recs & Hrecs & Hlen).
  vm_compute in Hrecs. injection Hrecs as <-. discriminate Hlen.
Qed.

(** C2 (amended) on the sample config of the stealthy fetcher. *)
Lemma execute_returns_fetch_outcome_witness :
  exists (d : dict) (recs : list dict),
    execute Fixture.lib Fixture.rt Fixture.host (JObject Fixture.stealthy_config) = inr d /\
    dict_lookup d "actions" = Some (JArray (map JObject recs)) /\
    length recs = 6.
Proof.
  destruct (execute Fixture.lib Fixture.rt Fixture.host (JObject Fixture.stealthy_config))
    as [e|d] eqn:Hrun; [vm_compute in Hrun; discriminate Hrun|].
  destruct (execute_returns_fetch_outcome Fixture.lib Fixture.rt Fixture.host _ d Hrun)
    as (cfg & url & response & recs & Hcfg & _ & Hd & _ & Hlen).
  injection Hcfg as <-.
  exists d, recs. split; [reflexivity|]. split; [now rewrite Hd|].
  exact (Hlen Fixture.steps eq_refl).
Defined.

(** C9 on the sample config of the plain fetcher. *)
Lemma other_method_runs_no_action_witness :
  exists (kw : fetch_kwargs) (d : dict),
    ex_fetch (execute_traced Fixture.lib Fixture.rt Fixture.host (JObject Fixture.get_config))
    = Some (FetcherGet (JString "https://example.org/") kw) /\
    kw_has kw "page_action" = false /\
    kw_has kw "network_idle" = false /\
    kw_get kw "timeout" = Some (KwValue (JNum 45)) /\
    ex_trace (execute_traced Fixture.lib Fixture.rt Fixture.host (JObject Fixture.get_config))
    = [] /\
    execute Fixture.lib Fixture.rt Fixture.host (JObject Fixture.get_config) = inr d /\
    dict_lookup d "actions" = Some (JArray []).
Proof.
  destruct (other_method_runs_no_action Fixture.lib Fixture.rt Fixture.host
              Fixture.get_config (JString "https://example.org/") 45999 "."
              eq_refl eq_refl eq_refl eq_refl eq_refl eq_refl)
    as (kw & Hcall & Hpa & Hni & Ht & _ & Htrace & Hret).
  destruct (execute Fixture.lib Fixture.rt Fixture.host (JObject Fixture.get_config))
    as [e|d] eqn:Hrun; [vm_compute in Hrun; discriminate Hrun|].
  exists kw, d. repeat split; try assumption. exact (Hret d eq_refl).
Defined.

(** C5, as stated, fails: [--config ''] is given, and the config is built
    from the flags instead of being read from that file. *)
Lemma empty_config_option_is_skipped :
  ~ (forall p : string,
        arg_stdin Fixture.flags_empty_config = false ->
        arg_config Fixture.flags_empty_config = Some p ->
        load_config Fixture.rt Fixture.host Fixture.flags_empty_config
        = Some (file_json Fixture.host p)).
Proof.
  intros H. specialize (H EmptyString eq_refl eq_refl). vm_compute in H. discriminate H.
Qed.

(** C5 (amended) on [--config config.json]. *)
Lemma config_source_precedence_witness :
  arg_stdin Fixture.flags_config = false /\
  arg_config Fixture.flags_config = Some "config.json" /\
  load_config Fixture.rt Fixture.host Fixture.flags_config
  = Some (file_json Fixture.host "config.json").
Proof.
  split; [reflexivity|]. split; [reflexivity|].
  refine (proj1 (proj2 (config_source_precedence Fixture.lib Fixture.rt Fixture.host
                          Fixture.flags_config)) "config.json" eq_refl eq_refl _).
  discriminate.
Defined.


(** * Further properties *)

(** ** What a step passes to the library and what its record holds *)

Ltac one_branch Ha E :=
  literal_action Ha E;
  eapply BranchCall;
  [ intros s; chain_at Ha; reflexivity
  | intros x; reflexivity
  | cbn [op_opts]; first [reflexivity | exact I] ].

Section Branches.
Context {W Elem : Type}.
Variable lib : Library W Elem.
Variable rt : Runtime.

Lemma dispatch_branch (output_dir : string) (i : nat) (step : dict) :
  Branch lib rt output_dir i step.
Proof.
  remember (Py.dict_get step "action") as action eqn:Ha.
  destruct (Py.eq_str action "screenshot") eqn:E1.
  { literal_action Ha E1.
    destruct (py_path_join rt output_dir
                (screenshot_name i (Py.dict_get step "filename"))) as [e|path] eqn:Ep.
    - apply (BranchArgs lib rt output_dir i step e).
      intros s; chain_at Ha. unfold bind, lift. rewrite Ep. reflexivity.
    - apply (BranchCall lib rt output_dir i step unit (Screenshot path)
               (fun _ => [("path", JString path)])).
      + intros s; chain_at Ha. unfold bind at 1, lift. rewrite Ep. reflexivity.
      + reflexivity.
      + exact I. }
  destruct (Py.eq_str action "click") eqn:E2; [one_branch Ha E2|].
  destruct (Py.eq_str action "fill") eqn:E3; [one_branch Ha E3|].
  destruct (Py.eq_str action "type") eqn:E4; [one_branch Ha E4|].
  destruct (Py.eq_str action "hover") eqn:E5; [one_branch Ha E5|].
  destruct (Py.eq_str action "press") eqn:E6; [one_branch Ha E6|].
  destruct (Py.eq_str action "select") eqn:E7; [one_branch Ha E7|].
  destruct (Py.eq_str action "check") eqn:E8; [one_branch Ha E8|].
  destruct (Py.eq_str action "uncheck") eqn:E9; [one_branch Ha E9|].
  destruct (Py.eq_str action "wait") eqn:E10.
  { literal_action Ha E10.
    destruct (if Py.truthy (Py.dict_get step "value")
              then py_int rt (Py.dict_get step "value") else inr 1000%Z)
      as [e|ms] eqn:Ems.
    - apply (BranchArgs lib rt output_dir i step e).
      intros s; chain_at Ha. unfold bind, lift. rewrite Ems. reflexivity.
    - apply (BranchCall lib rt output_dir i step unit (WaitForTimeout ms)
               (fun _ => [("ms", JNum ms)])).
      + intros s; chain_at Ha. unfold bind at 1, lift. rewrite Ems. reflexivity.
      + reflexivity.
      + exact I. }
  destruct (Py.eq_str action "wait_selector") eqn:E11; [one_branch Ha E11|].
  destruct (Py.eq_str action "wait_url") eqn:E12; [one_branch Ha E12|].
  destruct (Py.eq_str action "get_text") eqn:E13; [one_branch Ha E13|].
  destruct (Py.eq_str action "get_attribute") eqn:E14; [one_branch Ha E14|].
  destruct (Py.eq_str action "get_value") eqn:E15; [one_branch Ha E15|].
  destruct (Py.eq_str action "list_elements") eqn:E16.
  { literal_action Ha E16. apply BranchList. intros s; chain_at Ha; reflexivity. }
  destruct (Py.eq_str action "evaluate") eqn:E17; [one_branch Ha E17|].
  destruct (Py.eq_str action "go_back") eqn:E18; [one_branch Ha E18|].
  destruct (Py.eq_str action "go_forward") eqn:E19; [one_branch Ha E19|].
  destruct (Py.eq_str action "reload") eqn:E20; [one_branch Ha E20|].
  destruct (Py.eq_str action "scroll") eqn:E21; [one_branch Ha E21|].
  destruct (Py.eq_str action "focus") eqn:E22; [one_branch Ha E22|].
  destruct (Py.eq_str action "blur") eqn:E23; [one_branch Ha E23|].
  destruct (Py.eq_str action "drag") eqn:E24; [one_branch Ha E24|].
  destruct (Py.eq_str action "upload_file") eqn:E25; [one_branch Ha E25|].
  destruct (Py.eq_str action "get_url") eqn:E26; [one_branch Ha E26|].
  destruct (Py.eq_str action "get_title") eqn:E27; [one_branch Ha E27|].
  apply BranchUnknown.
  intros s. unfold dispatch; cbv zeta; rewrite <- Ha.
  rewrite E1, E2, E3, E4, E5, E6, E7, E8, E9, E10, E11, E12, E13, E14, E15,
    E16, E17, E18, E19, E20, E21, E22, E23, E24, E25, E26, E27.
  reflexivity.
Qed.

Lemma elem_events_no_opts (i : nat) (step : dict) (l : list (Elem * (exn + string))) :
  Forall (opts_from step) (map (elem_event i) l).
Proof.
  apply Forall_map, Forall_forall. intros p _. exact I.
Qed.

Lemma process_step_facts (output_dir : string) (i : nat) (step : dict) (s : state W Elem) :
  exists (rec : dict) (evs : list (event Elem)) (w' : W),
    process_step lib rt output_dir i step s
    = (inr tt, {| page := w'; results := results s ++ [rec]; trace := trace s ++ evs |}) /\
    status_agrees rec /\
    Forall (opts_from step) evs.
Proof.
  unfold process_step, try_except.
  destruct (dispatch_branch output_dir i step) as [Hd | e Hd | T op k Hd Hk Hopts | Hd];
    rewrite Hd.
  - eexists _, [], (page s). split; [unfold append; now rewrite app_nil_r|].
    split; [right; split; [reflexivity|eexists; reflexivity]|constructor].
  - eexists _, [], (page s). split; [unfold append; cbn; now rewrite app_nil_r|].
    split; [right; split; [reflexivity|eexists; reflexivity]|constructor].
  - unfold bind, call.
    destruct (page_call lib T op (page s)) as [[e|x] w'] eqn:Ec.
    + eexists _, _, w'. split; [reflexivity|].
      split; [right; split; [reflexivity|eexists; reflexivity]|].
      constructor; [exact Hopts|constructor].
    + eexists _, _, w'. split; [reflexivity|].
      split; [left; split; [reflexivity|exact (Hk x)]|].
      constructor; [exact Hopts|constructor].
  - unfold bind at 1, call.
    destruct (page_call lib (list Elem) (LocatorAll (Py.dict_get step "selector")) (page s))
      as [[e|elements] w'] eqn:Ec.
    + eexists _, _, w'. split; [reflexivity|].
      split; [right; split; [reflexivity|eexists; reflexivity]|].
      constructor; [exact I|constructor].
    + unfold bind at 1.
      match goal with
      | |- context [collect_texts lib i ?els ?t ?s0] =>
          destruct (collect_texts_run lib i els t s0) as (outs & w'' & Hlen & Hrun);
          rewrite Hrun
      end.
      eexists _, _, w''. split.
      * unfold append. cbn [page results trace]. rewrite <- app_assoc. reflexivity.
      * split; [left; split; reflexivity|].
        constructor; [exact I|apply elem_events_no_opts].
Qed.

(** X1. Every record tells a failure by its status alone: the ['status'] of
    the record of a step is ['ok'] or ['error'], and the record holds an
    ['error'] message exactly when the status is ['error']. *)
Theorem status_tells_failure (output_dir : string) (i : nat) (step : dict)
    (s : state W Elem) :
  exists (rec : dict) (s' : state W Elem),
    process_step lib rt output_dir i step s = (inr tt, s') /\
    results s' = results s ++ [rec] /\
    ((dict_lookup rec "status" = Some (JString "ok") /\ dict_lookup rec "error" = None) \/
     (dict_lookup rec "status" = Some (JString "error") /\
      exists msg : string, dict_lookup rec "error" = Some (JString msg))).
Proof.
  destruct (process_step_facts output_dir i step s) as (rec & evs & w' & Hrun & Hstatus & _).
  exists rec. eexists. split; [exact Hrun|]. split; [reflexivity|exact Hstatus].
Qed.


End Branches.

(** ** [page_action] on any JSON value, and on a closure that already ran *)

Section Passes.
Context {W Elem : Type}.
Variable lib : Library W Elem.
Variable rt : Runtime.
Variable output_dir : string.

(** The loop over any list of JSON values only appends. *)
Lemma run_steps_appends (steps : list json) :
  forall (i : nat) (s : state W Elem),
  exists (r : exn + unit) (recs : list dict) (evs : list (event Elem)) (w' : W),
    run_steps lib rt output_dir i steps s
    = (r, {| page := w'; results := results s ++ recs; trace := trace s ++ evs |}) /\
    length recs <= length steps.
Proof.
  induction steps as [|v rest IH]; intros i s.
  - exists (inr tt), [], [], (page s). split; [|simpl; lia].
    simpl. unfold ret. rewrite !app_nil_r. now destruct s.
  - assert (Hraise : forall e : exn,
               exists (r : exn + unit) (recs : list dict) (evs : list (event Elem)) (w' : W),
                 raise e s
                 = (r, {| page := w'; results := results s ++ recs; trace := trace s ++ evs |}) /\
                 length recs <= length (v :: rest)).
    { intros e. exists (inl e), [], [], (page s). split; [|simpl; lia].
      unfold raise. rewrite !app_nil_r. now destruct s. }
    destruct v as [| b | n | str | items | step]; try (apply Hraise).
    destruct (process_step_log lib rt output_dir i step s) as (rec & evs & w1 & _ & Hrun).
    destruct (IH (S i) {| page := w1; results := results s ++ [rec]; trace := trace s ++ evs |})
      as (r & recs & evs' & w2 & Hruns & Hlen).
    exists r, (rec :: recs), (evs ++ evs'), w2. split; [|simpl; lia].
    cbn [run_steps]. unfold bind. rewrite Hrun, Hruns.
    cbn [page results trace]. rewrite <- !app_assoc. now destruct r.
Qed.

(** X3. Whatever JSON value [actions] is, a call of [page_action] only
    appends: the records and the logged calls that were there stay, in
    place, whether the call returns or raises; when it returns, it returns
    the whole list; it adds at most one record per item of [actions], and
    none when [actions] cannot be iterated. *)
Theorem page_action_only_appends (actions : json) (s : state W Elem) :
  exists (r : exn + list dict) (recs : list dict) (evs : list (event Elem)) (w' : W),
    page_action lib rt actions output_dir s
    = (r, {| page := w'; results := results s ++ recs; trace := trace s ++ evs |}) /\
    match r with
    | inr returned => returned = results s ++ recs
    | inl _ => True
    end /\
    match iter_items actions with
    | Some items => length recs <= length items
    | None => recs = [] /\ evs = [] /\ r = inl (error rt (NotIterable actions))
    end.
Proof.
  unfold page_action. destruct (iter_items actions) as [items|].
  - destruct (run_steps_appends items 0 s) as (r & recs & evs & w' & Hrun & Hlen).
    unfold bind. rewrite Hrun. destruct r as [e|[]].
    + exists (inl e), recs, evs, w'. repeat split. exact Hlen.
    + exists (inr (results s ++ recs)), recs, evs, w'. repeat split. exact Hlen.
  - exists (inl (error rt (NotIterable actions))), [], [], (page s).
    unfold raise. rewrite !app_nil_r. destruct s; repeat split.
Qed.

(** X4. A step that is not a dict ends the pass: [page_action] raises the
    [AttributeError] of [step.get], the steps before it have their records
    (one each), and no later step is processed. *)
Theorem non_dict_step_ends_the_pass (steps : list dict) (v : json) (rest : list json)
    (s : state W Elem) :
  is_dict v = false ->
  exists (recs : list dict) (evs : list (event Elem)) (w' : W),
    page_action lib rt (JArray (map JObject steps ++ v :: rest)) output_dir s
    = (inl (error rt (NoAttributeGet v)),
       {| page := w'; results := results s ++ recs; trace := trace s ++ evs |}) /\
    length recs = length steps /\
    Forall (fun ev => ev_step ev < length steps) evs.
Proof.
  intros Hv.
  assert (Hloop : forall (l : list dict) (i : nat) (s0 : state W Elem),
             exists (recs : list dict) (evs : list (event Elem)) (w' : W),
               run_steps lib rt output_dir i (map JObject l ++ v :: rest) s0
               = (inl (error rt (NoAttributeGet v)),
                  {| page := w'; results := results s0 ++ recs; trace := trace s0 ++ evs |}) /\
               length recs = length l /\
               Forall (fun ev => i <= ev_step ev < i + length l) evs).
  { induction l as [|step l IH]; intros i s0.
    - exists [], [], (page s0). split; [|split; [reflexivity|constructor]].
      cbn [map app run_steps]. rewrite !app_nil_r.
      destruct v; try discriminate Hv; unfold raise; now destruct s0.
    - destruct (process_step_log lib rt output_dir i step s0)
        as (rec & evs & w1 & Hlog & Hrun).
      destruct (IH (S i) {| page := w1; results := results s0 ++ [rec];
                            trace := trace s0 ++ evs |})
        as (recs & evs' & w2 & Hruns & Hlen & Hevs).
      exists (rec :: recs), (evs ++ evs'), w2. split; [|split].
      + cbn [map app run_steps]. unfold bind. rewrite Hrun, Hruns.
        cbn [page results trace]. now rewrite <- !app_assoc.
      + simpl; lia.
      + apply Forall_app. split.
        * eapply Forall_impl; [|eapply step_log_events; eassumption].
          simpl; intros ev ->; lia.
        * eapply Forall_impl; [|exact Hevs]. simpl; intros ev ?; lia. }
  destruct (Hloop steps 0 s) as (recs & evs & w' & Hrun & Hlen & Hevs).
  exists recs, evs, w'. split; [|split; [exact Hlen|]].
  - unfold page_action. cbn [iter_items]. unfold bind. now rewrite Hrun.
  - eapply Forall_impl; [|exact Hevs]. simpl; intros ev ?; lia.
Qed.

(** X5. The list [results] is never reset: a call of [page_action] on a
    closure that already holds records keeps them and appends one record
    per step after them, and the ['step'] of each new record is the index
    of its step in the action list, not its position in [results]. *)
Theorem earlier_results_are_kept (steps : list dict) (s : state W Elem) :
  exists (recs : list dict) (s' : state W Elem),
    page_action lib rt (JArray (map JObject steps)) output_dir s = (inr (results s'), s') /\
    results s' = results s ++ recs /\
    length recs = length steps /\
    forall (i : nat) (step : dict),
      nth_error steps i = Some step ->
      exists rec : dict,
        nth_error (results s') (length (results s) + i) = Some rec /\
        dict_lookup rec "step" = Some (JNum (Z.of_nat i)).
Proof.
  destruct (page_action_log lib rt output_dir steps s) as (recs & evs & w' & Hlog & Hrun).
  exists recs, {| page := w'; results := results s ++ recs; trace := trace s ++ evs |}.
  split; [exact Hrun|]. split; [reflexivity|].
  split; [eapply run_log_length; eassumption|].
  intros i step Hi.
  destruct (run_log_nth lib rt output_dir _ _ _ _ _ _ Hlog i step Hi)
    as (rec & w1 & w2 & Hnth & Hstep).
  exists rec. split.
  - cbn [results]. rewrite nth_error_app2 by lia.
    replace (length (results s) + i - length (results s)) with i by lia. exact Hnth.
  - eapply step_log_fields; eassumption.
Qed.

End Passes.

(** ** What [execute] asks of the fetchers *)

Section Fetchers.
Context {W Elem : Type}.
Variable lib : Library W Elem.
Variable rt : Runtime.
Variable host : Host.

Ltac open_execute cfg Hurl :=
  unfold execute, execute_traced;
  destruct (dict_lookup cfg "url") as [url|] eqn:Hurl; [|discriminate];
  cbv zeta;
  destruct (Py.dict_get_default cfg "outputDir" (JString ".")) as [| | |output_dir| |];
  try discriminate;
  destruct (mkdir host output_dir) as [e|]; [discriminate|];
  unfold create_page_action.

(** X6. The keyword arguments of the fetcher call.  Whichever fetcher is
    called receives [headless], and [real_chrome=True] and [user_data_dir]
    exactly when the config's values are truthy.  The two browser fetchers
    also receive the callback, the timeout as configured and
    [network_idle]; [Fetcher.get] receives none of these two.
    [solve_cloudflare=True] is passed to [StealthyFetcher.fetch] only: with
    any other method the config's ['solveCloudflare'] has no effect. *)
Theorem fetcher_keywords (cfg : dict) (call : FetchCall) :
  ex_fetch (execute_traced lib rt host (JObject cfg)) = Some call ->
  kw_get (call_kw call) "headless"
  = Some (KwValue (Py.dict_get_default cfg "headless" (JBool true))) /\
  kw_get (call_kw call) "real_chrome"
  = (if Py.truthy (Py.dict_get_default cfg "realChrome" (JBool false))
     then Some (KwValue (JBool true)) else None) /\
  kw_get (call_kw call) "user_data_dir"
  = (if Py.truthy (Py.dict_get cfg "userDataDir")
     then Some (KwValue (Py.dict_get cfg "userDataDir")) else None) /\
  match call with
  | StealthyFetcherFetch _ kw =>
      kw_get kw "page_action" = Some KwPageAction /\
      kw_get kw "timeout" = Some (KwValue (Py.dict_get_default cfg "timeout" (JNum 45000))) /\
      kw_get kw "network_idle"
      = Some (KwValue (Py.dict_get_default cfg "networkIdle" (JBool true))) /\
      kw_get kw "solve_cloudflare"
      = (if Py.truthy (Py.dict_get_default cfg "solveCloudflare" (JBool false))
         then Some (KwValue (JBool true)) else None)
  | DynamicFetcherFetch _ kw =>
      kw_get kw "page_action" = Some KwPageAction /\
      kw_get kw "timeout" = Some (KwValue (Py.dict_get_default cfg "timeout" (JNum 45000))) /\
      kw_get kw "network_idle"
      = Some (KwValue (Py.dict_get_default cfg "networkIdle" (JBool true))) /\
      kw_get kw "solve_cloudflare" = None
  | FetcherGet _ kw =>
      kw_get kw "page_action" = None /\
      kw_get kw "network_idle" = None /\
      kw_get kw "solve_cloudflare" = None
  end.
Proof.
  open_execute cfg Hurl.
  destruct (Py.eq_str (Py.dict_get_default cfg "method" (JString "stealthy-fetch"))
              "stealthy-fetch");
    [|destruct (Py.eq_str (Py.dict_get_default cfg "method" (JString "stealthy-fetch"))
                 "fetch")].
  - unfold fetch_with_actions.
    match goal with
    | |- context [run_fetch ?cb ?run ?r0 ?t0 ?p0] =>
        destruct (run_fetch cb run r0 t0 p0) as [r [[res tr] passes]]
    end.
    cbn [ex_fetch]. intros Hc. injection Hc as <-. cbn [call_kw].
    destruct (Py.truthy (Py.dict_get_default cfg "realChrome" (JBool false)));
      destruct (Py.truthy (Py.dict_get cfg "userDataDir"));
      destruct (Py.truthy (Py.dict_get_default cfg "solveCloudflare" (JBool false)));
      repeat split.
  - unfold fetch_with_actions.
    match goal with
    | |- context [run_fetch ?cb ?run ?r0 ?t0 ?p0] =>
        destruct (run_fetch cb run r0 t0 p0) as [r [[res tr] passes]]
    end.
    cbn [ex_fetch]. intros Hc. injection Hc as <-. cbn [call_kw].
    destruct (Py.truthy (Py.dict_get_default cfg "realChrome" (JBool false)));
      destruct (Py.truthy (Py.dict_get cfg "userDataDir"));
      repeat split.
  - destruct (py_floordiv_1000 rt (Py.dict_get_default cfg "timeout" (JNum 45000)))
      as [e|seconds]; [discriminate|].
    cbn [ex_fetch]. intros Hc. injection Hc as <-. cbn [call_kw].
    destruct (Py.truthy (Py.dict_get_default cfg "realChrome" (JBool false)));
      destruct (Py.truthy (Py.dict_get cfg "userDataDir"));
      repeat split.
Qed.

(** X7. [execute] returns a result only after the call of one fetcher, for
    the configured url, and the method selects it: ['stealthy-fetch'] is
    [StealthyFetcher.fetch], ['fetch'] is [DynamicFetcher.fetch], and every
    other value (['get'], a misspelt name, [null], a number) is
    [Fetcher.get]. *)
Theorem method_selects_fetcher (config : json) (d : dict) :
  execute lib rt host config = inr d ->
  exists (cfg : dict) (call : FetchCall),
    config = JObject cfg /\
    ex_fetch (execute_traced lib rt host config) = Some call /\
    dict_lookup cfg "url" = Some (call_url call) /\
    match call with
    | StealthyFetcherFetch _ _ =>
        Py.eq_str (Py.dict_get_default cfg "method" (JString "stealthy-fetch"))
          "stealthy-fetch" = true
    | DynamicFetcherFetch _ _ =>
        Py.eq_str (Py.dict_get_default cfg "method" (JString "stealthy-fetch"))
          "stealthy-fetch" = false /\
        Py.eq_str (Py.dict_get_default cfg "method" (JString "stealthy-fetch")) "fetch" = true
    | FetcherGet _ _ =>
        Py.eq_str (Py.dict_get_default cfg "method" (JString "stealthy-fetch"))
          "stealthy-fetch" = false /\
        Py.eq_str (Py.dict_get_default cfg "method" (JString "stealthy-fetch")) "fetch" = false
    end.
Proof.
  destruct config as [| | | |items|cfg]; try discriminate.
  open_execute cfg Hurl.
  destruct (Py.eq_str (Py.dict_get_default cfg "method" (JString "stealthy-fetch"))
              "stealthy-fetch") eqn:Hm1;
    [|destruct (Py.eq_str (Py.dict_get_default cfg "method" (JString "stealthy-fetch"))
                 "fetch") eqn:Hm2].
  - unfold fetch_with_actions.
    match goal with
    | |- context [run_fetch ?cb ?run ?r0 ?t0 ?p0] =>
        destruct (run_fetch cb run r0 t0 p0) as [r [[res tr] passes]]
    end.
    cbn [ex_fetch ex_result]. intros _.
    eexists cfg, _. split; [reflexivity|]. split; [reflexivity|].
    split; [exact Hurl|exact Hm1].
  - unfold fetch_with_actions.
    match goal with
    | |- context [run_fetch ?cb ?run ?r0 ?t0 ?p0] =>
        destruct (run_fetch cb run r0 t0 p0) as [r [[res tr] passes]]
    end.
    cbn [ex_fetch ex_result]. intros _.
    eexists cfg, _. split; [reflexivity|]. split; [reflexivity|].
    split; [exact Hurl|split; assumption].
  - destruct (py_floordiv_1000 rt (Py.dict_get_default cfg "timeout" (JNum 45000)))
      as [e|seconds]; [discriminate|].
    cbn [ex_fetch ex_result]. intros _.
    eexists cfg, _. split; [reflexivity|]. split; [reflexivity|].
    split; [exact Hurl|split; assumption].
Qed.

End Fetchers.

(** ** How [main] ends *)

Section Endings.
Context {W Elem : Type}.
Variable lib : Library W Elem.
Variable rt : Runtime.
Variable host : Host.

(** X8. A config that cannot be read or parsed is not reported as a JSON
    error object: when the JSON of stdin, of the [--config] file or of
    [--actions] does not parse (or the file cannot be opened), the exception
    leaves [main], which prints nothing on stdout or stderr; the process
    ends with status 1. *)
Theorem unreadable_config_escapes (args : Args) (e : exn) :
  (arg_stdin args = true /\ stdin_json host = inl e) \/
  (arg_stdin args = false /\
   exists p : string,
     arg_config args = Some p /\ p <> EmptyString /\ file_json host p = inl e) \/
  (arg_stdin args = false /\ given (arg_config args) = false /\
   exists u a : string,
     arg_url args = Some u /\ u <> EmptyString /\
     arg_actions args = Some a /\ a <> EmptyString /\ json_loads rt a = inl e) ->
  main lib rt host args = {| stdout := []; stderr := []; ending := Uncaught e |} /\
  exit_status (ending (main lib rt host args)) = 1%Z.
Proof.
  intros H.
  assert (Hload : load_config rt host args = Some (inl e)).
  { unfold load_config.
    destruct H as [[-> ->] | [(-> & p & -> & Hp & ->) | (-> & -> & u & a & -> & Hu & Ha & Hne & Hj)]].
    - reflexivity.
    - now rewrite (given_some p Hp).
    - rewrite (given_some u Hu). unfold config_of_flags.
      now rewrite Ha, (given_some a Hne), Hj. }
  unfold main. rewrite Hload. split; reflexivity.
Qed.

(** X9. A config that is not a JSON object, or that has no ['url'], is
    reported: no fetcher is called, [main] prints nothing on stdout, prints
    the JSON object [{'error': <message>}] on stderr, with the message of
    the [TypeError] or of the [KeyError], and exits with status 1. *)
Theorem config_without_url_is_reported (args : Args) (config : json) :
  load_config rt host args = Some (inr config) ->
  (forall cfg : dict, config = JObject cfg -> dict_lookup cfg "url" = None) ->
  ex_fetch (execute_traced lib rt host config) = None /\
  main lib rt host args
  = {| stdout := [];
       stderr :=
         [json_dumps rt true
            (JObject
               [("error",
                 JString (builtin_error rt
                            (if is_dict config then KeyError "url"
                             else SubscriptTypeError config)))])];
       ending := SysExit 1 |}.
Proof.
  intros Hload Hurl. unfold main, run_config, execute. rewrite Hload.
  destruct config as [| b | n | str | items | cfg];
    try (split; reflexivity).
  cbn [execute_traced is_dict]. rewrite (Hurl cfg eq_refl). split; reflexivity.
Qed.

(** X10. From the command line to the fetcher.  With [--url] (and neither
    [--stdin] nor [--config]), [--method] selects the fetcher of its name,
    called on the url; [headless] is the negation of [--no-headless]
    (the flag [--headless] is not read); the two browser fetchers receive
    [--timeout] as given, [Fetcher.get] receives it divided by 1000;
    [solve_cloudflare] reaches the stealthy fetcher only; and with
    [--method get] no page operation is invoked, whatever [--actions]
    holds. *)
Theorem flags_reach_the_fetcher (args : Args) (u : string) (config : json) :
  arg_stdin args = false ->
  given (arg_config args) = false ->
  arg_url args = Some u ->
  u <> EmptyString ->
  config_of_flags rt args u = inr config ->
  mkdir host (arg_output_dir args) = None ->
  load_config rt host args = Some (inr config) /\
  exists kw : fetch_kwargs,
    ex_fetch (execute_traced lib rt host config)
    = Some (match arg_method args with
            | MethodStealthyFetch => StealthyFetcherFetch (JString u) kw
            | MethodFetch => DynamicFetcherFetch (JString u) kw
            | MethodGet => FetcherGet (JString u) kw
            end) /\
    kw_get kw "headless" = Some (KwValue (JBool (negb (arg_no_headless args)))) /\
    kw_get kw "timeout"
    = Some (KwValue (JNum (match arg_method args with
                           | MethodGet => arg_timeout args / 1000
                           | _ => arg_timeout args
                           end))) /\
    kw_get kw "solve_cloudflare"
    = (match arg_method args with
       | MethodStealthyFetch =>
           if arg_solve_cloudflare args then Some (KwValue (JBool true)) else None
       | _ => None
       end) /\
    (arg_method args = MethodGet ->
     ex_passes (execute_traced lib rt host config) = 0 /\
     ex_trace (execute_traced lib rt host config) = []).
Proof.
  intros Hstdin Hconfig Hurl Hu Hflags Hmk.
  split.
  { unfold load_config. now rewrite Hstdin, Hconfig, Hurl, (given_some u Hu), Hflags. }
  unfold config_of_flags in Hflags.
  destruct (if given (arg_actions args)
            then json_loads rt match arg_actions args with
                               | Some a => a
                               | None => EmptyString
                               end
            else inr (JArray [])) as [e|actions]; [discriminate|].
  injection Hflags as <-.
  unfold execute_traced.
  cbn [dict_lookup Py.dict_get_default Py.dict_get String.eqb Ascii.eqb Bool.eqb].
  rewrite Hmk. unfold create_page_action.
  destruct (arg_method args); cbn [method_name Py.eq_str String.eqb Ascii.eqb Bool.eqb].
  - cbn [py_floordiv_1000 Py.truthy].
    destruct (arg_real_chrome args); destruct (arg_user_data_dir args) as [dir|];
      cbn [json_of_opt Py.truthy]; try destruct (negb (dir =? ""))%string;
      (eexists; split; [reflexivity|]; repeat split).
  - unfold fetch_with_actions.
    match goal with
    | |- context [run_fetch ?cb ?run ?r0 ?t0 ?p0] =>
        destruct (run_fetch cb run r0 t0 p0) as [r [[res tr] passes]]
    end.
    cbn [ex_fetch Py.truthy].
    destruct (arg_real_chrome args); destruct (arg_user_data_dir args) as [dir|];
      cbn [json_of_opt Py.truthy]; try destruct (negb (dir =? ""))%string;
      (eexists; split; [reflexivity|]; repeat split; discriminate).
  - unfold fetch_with_actions.
    match goal with
    | |- context [run_fetch ?cb ?run ?r0 ?t0 ?p0] =>
        destruct (run_fetch cb run r0 t0 p0) as [r [[res tr] passes]]
    end.
    cbn [ex_fetch Py.truthy].
    destruct (arg_solve_cloudflare args);
      destruct (arg_real_chrome args); destruct (arg_user_data_dir args) as [dir|];
      cbn [json_of_opt Py.truthy]; try destruct (negb (dir =? ""))%string;
      (eexists; split; [reflexivity|]; repeat split; discriminate).
Qed.

End Endings.

(** ** Single branches: [wait], [list_elements], [screenshot] *)

Lemma append_length (a b : string) :
  String.length (a ++ b)%string = String.length a + String.length b.
Proof. induction a as [|c a IH]; simpl; [reflexivity|now rewrite IH]. Qed.

Lemma append_inv_tail (a b t : string) : (a ++ t)%string = (b ++ t)%string -> a = b.
Proof.
  revert b; induction a as [|c a IH]; intros [|c' b] H; simpl in H.
  - reflexivity.
  - apply (f_equal String.length) in H. simpl in H. rewrite append_length in H. lia.
  - apply (f_equal String.length) in H. simpl in H. rewrite append_length in H. lia.
  - injection H as -> H. f_equal. now apply IH.
Qed.

Lemma str_of_Z_inj (n m : Z) : Py.str_of_Z n = Py.str_of_Z m -> n = m.
Proof.
  unfold Py.str_of_Z. intros H.
  assert (Hnil : forall z : Z,
             Z.to_int z <> Decimal.Pos Decimal.Nil /\ Z.to_int z <> Decimal.Neg Decimal.Nil).
  { intros [|p|p]; simpl; split; try discriminate;
      intros [= Hp]; now apply (DecimalPos.Unsigned.to_uint_nonnil p). }
  apply DecimalZ.to_int_inj.
  assert (Hs : Some (Z.to_int n) = Some (Z.to_int m)).
  { rewrite <- (NilZero.isi (Z.to_int n)) by apply Hnil.
    rewrite <- (NilZero.isi (Z.to_int m)) by apply Hnil.
    now rewrite H. }
  now injection Hs.
Qed.

Lemma lstrip_no_leading_space (s : string) :
  starts_with_space (Py.lstrip_by Py.is_space s) = false.
Proof.
  induction s as [|c s IH]; [reflexivity|].
  simpl. destruct (Py.is_space c) eqn:Hc; [exact IH|]. simpl. exact Hc.
Qed.

Lemma rstrip_keeps_head (s : string) :
  starts_with_space s = false -> starts_with_space (Py.rstrip_by Py.is_space s) = false.
Proof.
  destruct s as [|c s]; [reflexivity|]. simpl. intros Hc.
  destruct (Py.rstrip_by Py.is_space s); [rewrite Hc|]; simpl; exact Hc.
Qed.

Lemma rstrip_no_trailing_space (s : string) :
  ends_with_space (Py.rstrip_by Py.is_space s) = false.
Proof.
  induction s as [|c s IH]; [reflexivity|].
  cbn [Py.rstrip_by]. destruct (Py.rstrip_by Py.is_space s) as [|c' r].
  - destruct (Py.is_space c) eqn:Hc; [reflexivity|]. simpl. exact Hc.
  - exact IH.
Qed.

Lemma text_of_trimmed (o : exn + string) :
  exists str : string,
    text_of o = JString str /\ starts_with_space str = false /\ ends_with_space str = false.
Proof.
  destruct o as [e|t]; cbn [text_of].
  - eexists; split; [reflexivity|]. split; reflexivity.
  - eexists; split; [reflexivity|]. unfold Py.strip. split.
    + apply rstrip_keeps_head, lstrip_no_leading_space.
    + apply rstrip_no_trailing_space.
Qed.

Section SingleBranches.
Context {W Elem : Type}.
Variable lib : Library W Elem.
Variable rt : Runtime.

Ltac branch_at Ha :=
  unfold process_step, try_except, dispatch; cbv zeta; rewrite Ha;
  cbn [Py.eq_str String.eqb Ascii.eqb Bool.eqb]; unfold bind, call, lift.

(** X11. How long a [wait] step waits.  When its ['value'] is missing or
    falsy ([null], [0], [''], [false]) it waits 1000 ms; a non-zero integer
    is passed to the library as it is, without validation (also a negative
    one); and the ['ms'] of an ['ok'] record is the duration that was
    passed. *)
Theorem wait_duration (output_dir : string) (i : nat) (step : dict) (s : state W Elem)
    (ms : Z) :
  Py.eq_str (Py.dict_get step "action") "wait" = true ->
  (Py.truthy (Py.dict_get step "value") = false /\ ms = 1000%Z) \/
  (Py.dict_get step "value" = JNum ms /\ ms <> 0%Z) ->
  process_step lib rt output_dir i step s
  = let (r, w') := page_call lib _ (WaitForTimeout ms) (page s) in
    (inr tt,
     {| page := w';
        results :=
          results s ++
          [match r with
           | inr _ => record i (JString "wait") "ok" [("ms", JNum ms)]
           | inl e => error_record i (JString "wait") e
           end];
        trace := trace s ++ [call_event i (WaitForTimeout ms) r] |}).
Proof.
  intros Ha Hms. apply eq_str_true in Ha. branch_at Ha.
  assert (Hint : (if Py.truthy (Py.dict_get step "value")
                  then py_int rt (Py.dict_get step "value") else inr 1000%Z) = inr ms).
  { destruct Hms as [[-> ->] | [-> Hnz]]; [reflexivity|].
    cbn [Py.truthy py_int]. destruct (Z.eqb_spec ms 0); [contradiction|reflexivity]. }
  rewrite Hint.
  destruct (page_call lib unit (WaitForTimeout ms) (page s)) as [[e|[]] w']; reflexivity.
Qed.

(** X12. The ['texts'] of a [list_elements] record follow the elements:
    when the locator query returns [elements], [inner_text] is called on
    the first 50 of them in order, and entry [j] of ['texts'] is made from
    the answer to element [j] (trimmed text, or ['[no text]'] when it
    raised), so a failing element does not shift the others. *)
Theorem texts_follow_elements (output_dir : string) (i : nat) (step : dict)
    (s : state W Elem) (elements : list Elem) (w1 : W) :
  Py.eq_str (Py.dict_get step "action") "list_elements" = true ->
  page_call lib _ (LocatorAll (Py.dict_get step "selector")) (page s) = (inr elements, w1) ->
  exists (outs : list (exn + string)) (s' : state W Elem),
    length outs = Nat.min 50 (length elements) /\
    process_step lib rt output_dir i step s = (inr tt, s') /\
    trace s'
    = trace s ++
      call_event i (LocatorAll (Py.dict_get step "selector")) (inr elements)
      :: map (fun p => call_event i (ElemInnerText (fst p)) (snd p))
           (combine (firstn 50 elements) outs) /\
    results s'
    = results s ++
      [[("step", JNum (Z.of_nat i)); ("action", JString "list_elements");
        ("status", JString "ok");
        ("selector", Py.dict_get step "selector");
        ("count", JNum (Z.of_nat (length elements)));
        ("texts",
         JArray (map (fun o : exn + string =>
                        match o with
                        | inr t => JString (Py.strip (Py.slice_to 200 t))
                        | inl _ => JString "[no text]"
                        end) outs))]].
Proof.
  intros Ha Hcall. apply eq_str_true in Ha. branch_at Ha. rewrite Hcall.
  match goal with
  | |- context [collect_texts lib i ?els ?t ?s0] =>
      destruct (collect_texts_run lib i els t s0) as (outs & w'' & Hlen & Hrun);
      rewrite Hrun
  end.
  exists outs. eexists. split; [|split; [reflexivity|]].
  - rewrite Hlen, length_firstn. reflexivity.
  - unfold append. cbn [page results trace]. split.
    + rewrite <- app_assoc. reflexivity.
    + reflexivity.
Qed.

(** X13. Every entry of the ['texts'] of a [list_elements] record is
    trimmed: it neither begins nor ends with a whitespace character. *)
Theorem listed_texts_are_trimmed (output_dir : string) (i : nat) (step : dict)
    (s : state W Elem) :
  Py.eq_str (Py.dict_get step "action") "list_elements" = true ->
  exists (rec : dict) (s' : state W Elem),
    process_step lib rt output_dir i step s = (inr tt, s') /\
    results s' = results s ++ [rec] /\
    match fst (page_call lib _ (LocatorAll (Py.dict_get step "selector")) (page s)) with
    | inr elements =>
        exists texts : list json,
          dict_lookup rec "texts" = Some (JArray texts) /\
          Forall (fun t => exists str : string,
                      t = JString str /\
                      starts_with_space str = false /\ ends_with_space str = false) texts
    | inl _ => dict_lookup rec "texts" = None
    end.
Proof.
  intros Ha.
  destruct (process_step_log lib rt output_dir i step s) as (rec & evs & w' & Hlog & Hrun).
  exists rec. eexists. split; [exact Hrun|]. split; [reflexivity|].
  destruct Hlog as [Hrec | e0 Hrec Hlist Hargs | T op k r w1 Hrec Hlist Hargs Hop Hcall
                   | e0 w1 Hrec Hlist Hcall | elements w1 outs w2 Hrec Hlist Hcall Hlen];
    try congruence.
  - apply eq_str_true in Ha. rewrite Ha in Hrec. discriminate.
  - rewrite Hcall. reflexivity.
  - rewrite Hcall. cbn [fst]. exists (map text_of outs). split; [reflexivity|].
    apply Forall_map, Forall_forall. intros o _. apply text_of_trimmed.
Qed.

(** X14. Screenshot steps without a file name never share a default name:
    the names [screenshot-<i>.png] of two steps of a pass are equal only if
    the steps are the same. *)
Theorem default_screenshot_names_differ (i j : nat) (f g : json) :
  Py.truthy f = false ->
  Py.truthy g = false ->
  screenshot_name i f = screenshot_name j g ->
  i = j.
Proof.
  unfold screenshot_name. intros -> -> H.
  injection H as H. apply append_inv_tail in H.
  apply str_of_Z_inj in H. lia.
Qed.

End SingleBranches.

(** ** [int] reads back what [str] writes *)

Lemma parse_digits_uint (d : Decimal.uint) :
  forall acc : N,
    Py.parse_digits (Z.of_N acc) true (NilEmpty.string_of_uint d)
    = Some (Z.of_N (match acc with
                    | N0 => Pos.of_uint d
                    | Npos a => Npos (Pos.of_uint_acc d a)
                    end)).
Proof.
  induction d as [|d IH|d IH|d IH|d IH|d IH|d IH|d IH|d IH|d IH|d IH]; intros acc;
    [destruct acc; reflexivity|..];
    cbn [NilEmpty.string_of_uint Py.parse_digits];
    match goal with
    | |- context [Py.digit_val ?c] =>
        let v := eval vm_compute in (Py.digit_val c) in
        change (Py.digit_val c) with v; cbv beta iota
    end.
  - destruct acc as [|a].
    + change (Z.of_N 0 * 10 + 0)%Z with (Z.of_N 0). rewrite (IH 0%N). reflexivity.
    + replace (Z.of_N (N.pos a) * 10 + 0)%Z with (Z.of_N (N.pos (10 * a))) by lia.
      rewrite (IH (N.pos (10 * a))). reflexivity.
  - destruct acc as [|a].
    + change (Z.of_N 0 * 10 + 1)%Z with (Z.of_N 1). rewrite (IH 1%N). reflexivity.
    + replace (Z.of_N (N.pos a) * 10 + 1)%Z with (Z.of_N (N.pos (1 + 10 * a))) by lia.
      rewrite (IH (N.pos (1 + 10 * a))). reflexivity.
  - destruct acc as [|a].
    + change (Z.of_N 0 * 10 + 2)%Z with (Z.of_N 2). rewrite (IH 2%N). reflexivity.
    + replace (Z.of_N (N.pos a) * 10 + 2)%Z with (Z.of_N (N.pos (2 + 10 * a))) by lia.
      rewrite (IH (N.pos (2 + 10 * a))). reflexivity.
  - destruct acc as [|a].
    + change (Z.of_N 0 * 10 + 3)%Z with (Z.of_N 3). rewrite (IH 3%N). reflexivity.
    + replace (Z.of_N (N.pos a) * 10 + 3)%Z with (Z.of_N (N.pos (3 + 10 * a))) by lia.
      rewrite (IH (N.pos (3 + 10 * a))). reflexivity.
  - destruct acc as [|a].
    + change (Z.of_N 0 * 10 + 4)%Z with (Z.of_N 4). rewrite (IH 4%N). reflexivity.
    + replace (Z.of_N (N.pos a) * 10 + 4)%Z with (Z.of_N (N.pos (4 + 10 * a))) by lia.
      rewrite (IH (N.pos (4 + 10 * a))). reflexivity.
  - destruct acc as [|a].
    + change (Z.of_N 0 * 10 + 5)%Z with (Z.of_N 5). rewrite (IH 5%N). reflexivity.
    + replace (Z.of_N (N.pos a) * 10 + 5)%Z with (Z.of_N (N.pos (5 + 10 * a))) by lia.
      rewrite (IH (N.pos (5 + 10 * a))). reflexivity.
  - destruct acc as [|a].
    + change (Z.of_N 0 * 10 + 6)%Z with (Z.of_N 6). rewrite (IH 6%N). reflexivity.
    + replace (Z.of_N (N.pos a) * 10 + 6)%Z with (Z.of_N (N.pos (6 + 10 * a))) by lia.
      rewrite (IH (N.pos (6 + 10 * a))). reflexivity.
  - destruct acc as [|a].
    + change (Z.of_N 0 * 10 + 7)%Z with (Z.of_N 7). rewrite (IH 7%N). reflexivity.
    + replace (Z.of_N (N.pos a) * 10 + 7)%Z with (Z.of_N (N.pos (7 + 10 * a))) by lia.
      rewrite (IH (N.pos (7 + 10 * a))). reflexivity.
  - destruct acc as [|a].
    + change (Z.of_N 0 * 10 + 8)%Z with (Z.of_N 8). rewrite (IH 8%N). reflexivity.
    + replace (Z.of_N (N.pos a) * 10 + 8)%Z with (Z.of_N (N.pos (8 + 10 * a))) by lia.
      rewrite (IH (N.pos (8 + 10 * a))). reflexivity.
  - destruct acc as [|a].
    + change (Z.of_N 0 * 10 + 9)%Z with (Z.of_N 9). rewrite (IH 9%N). reflexivity.
    + replace (Z.of_N (N.pos a) * 10 + 9)%Z with (Z.of_N (N.pos (9 + 10 * a))) by lia.
      rewrite (IH (N.pos (9 + 10 * a))). reflexivity.
Qed.

Lemma parse_uint_string (d : Decimal.uint) :
  d <> Decimal.Nil ->
  Py.parse_digits 0 false (NilEmpty.string_of_uint d) = Some (Z.of_uint d).
Proof.
  destruct d as [|d|d|d|d|d|d|d|d|d|d]; intros Hd; [contradiction|..];
    cbn [NilEmpty.string_of_uint Py.parse_digits];
    match goal with
    | |- context [Py.digit_val ?c] =>
        let v := eval vm_compute in (Py.digit_val c) in
        change (Py.digit_val c) with v; cbv beta iota
    end.
  - change (0 * 10 + 0)%Z with (Z.of_N 0). now rewrite parse_digits_uint.
  - change (0 * 10 + 1)%Z with (Z.of_N 1). now rewrite parse_digits_uint.
  - change (0 * 10 + 2)%Z with (Z.of_N 2). now rewrite parse_digits_uint.
  - change (0 * 10 + 3)%Z with (Z.of_N 3). now rewrite parse_digits_uint.
  - change (0 * 10 + 4)%Z with (Z.of_N 4). now rewrite parse_digits_uint.
  - change (0 * 10 + 5)%Z with (Z.of_N 5). now rewrite parse_digits_uint.
  - change (0 * 10 + 6)%Z with (Z.of_N 6). now rewrite parse_digits_uint.
  - change (0 * 10 + 7)%Z with (Z.of_N 7). now rewrite parse_digits_uint.
  - change (0 * 10 + 8)%Z with (Z.of_N 8). now rewrite parse_digits_uint.
  - change (0 * 10 + 9)%Z with (Z.of_N 9). now rewrite parse_digits_uint.
Qed.

Lemma rstrip_digits (d : Decimal.uint) :
  Py.rstrip_by Py.is_int_space (NilEmpty.string_of_uint d) = NilEmpty.string_of_uint d.
Proof.
  induction d as [|d IH|d IH|d IH|d IH|d IH|d IH|d IH|d IH|d IH|d IH];
    [reflexivity|..];
    cbn [NilEmpty.string_of_uint Py.rstrip_by]; rewrite IH;
    destruct (NilEmpty.string_of_uint d); reflexivity.
Qed.

Lemma lstrip_digits (d : Decimal.uint) :
  Py.lstrip_by Py.is_int_space (NilEmpty.string_of_uint d) = NilEmpty.string_of_uint d.
Proof. destruct d; reflexivity. Qed.

Lemma count_digits_length (s : string) : Py.count_digits s <= String.length s.
Proof.
  induction s as [|c s IH]; simpl; [lia|]. destruct (Py.digit_val c); lia.
Qed.

Lemma within_limit (limit : nat) (s : string) :
  limit = 0 \/ String.length s <= limit ->
  ((0 <? limit) && (limit <? Py.count_digits s))%nat = false.
Proof.
  intros H. pose proof (count_digits_length s).
  destruct (Nat.ltb_spec 0 limit); [|reflexivity].
  destruct (Nat.ltb_spec limit (Py.count_digits s)); [lia|reflexivity].
Qed.

(** [int] of the digits of a number that is not written [Nil]. *)
Lemma int_of_digits (limit : nat) (d : Decimal.uint) :
  d <> Decimal.Nil ->
  limit = 0 \/ String.length (NilEmpty.string_of_uint d) <= limit ->
  Py.int_of_str limit (NilEmpty.string_of_uint d) = Some (Z.of_uint d).
Proof.
  intros Hd Hlimit. unfold Py.int_of_str.
  rewrite lstrip_digits, rstrip_digits.
  assert (Hparse := parse_uint_string d Hd).
  assert (Hwithin := within_limit limit _ Hlimit).
  destruct d; [contradiction|..]; cbn [NilEmpty.string_of_uint] in *; cbv beta iota zeta;
    rewrite Hparse, Hwithin; reflexivity.
Qed.

Lemma int_of_minus_digits (limit : nat) (d : Decimal.uint) :
  d <> Decimal.Nil ->
  limit = 0 \/ String.length (NilEmpty.string_of_uint d) <= limit ->
  Py.int_of_str limit (String "-" (NilEmpty.string_of_uint d)) = Some (- Z.of_uint d)%Z.
Proof.
  intros Hd Hlimit. unfold Py.int_of_str.
  assert (Hstrip : Py.rstrip_by Py.is_int_space
                     (Py.lstrip_by Py.is_int_space (String "-" (NilEmpty.string_of_uint d)))
                   = String "-" (NilEmpty.string_of_uint d)).
  { cbn [Py.lstrip_by].
    change (Py.is_int_space "-") with false. cbv iota.
    cbn [Py.rstrip_by]. rewrite rstrip_digits.
    destruct (NilEmpty.string_of_uint d); reflexivity. }
  rewrite Hstrip. cbv beta iota zeta.
  rewrite (parse_uint_string d Hd), (within_limit limit _ Hlimit). reflexivity.
Qed.

(** [int(str(n))] is [n], when the runtime allows that many digits. *)
Lemma int_of_str_of_Z (limit : nat) (n : Z) :
  limit = 0 \/ String.length (Py.str_of_Z n) <= limit ->
  Py.int_of_str limit (Py.str_of_Z n) = Some n.
Proof.
  unfold Py.str_of_Z. intros Hlimit. destruct n as [|p|p]; cbn [Z.to_int] in *.
  - apply (int_of_digits limit (Decimal.D0 Decimal.Nil)); [discriminate|exact Hlimit].
  - pose proof (DecimalPos.Unsigned.to_uint_nonnil p) as Hp.
    pose proof (DecimalZ.of_to (Z.pos p)) as Hz. cbn [Z.to_int Z.of_int] in Hz.
    cbn [NilZero.string_of_int] in *.
    assert (Hs : NilZero.string_of_uint (Pos.to_uint p)
                 = NilEmpty.string_of_uint (Pos.to_uint p))
      by (destruct (Pos.to_uint p); [contradiction|reflexivity..]).
    rewrite Hs in *. rewrite int_of_digits by assumption. now rewrite Hz.
  - pose proof (DecimalPos.Unsigned.to_uint_nonnil p) as Hp.
    pose proof (DecimalZ.of_to (Z.neg p)) as Hz. cbn [Z.to_int Z.of_int] in Hz.
    cbn [NilZero.string_of_int] in *.
    assert (Hs : NilZero.string_of_uint (Pos.to_uint p)
                 = NilEmpty.string_of_uint (Pos.to_uint p))
      by (destruct (Pos.to_uint p); [contradiction|reflexivity..]).
    rewrite Hs in *. rewrite int_of_minus_digits; [now rewrite Hz|assumption|].
    destruct Hlimit as [->|Hlen]; [now left|right]. simpl in Hlen. lia.
Qed.

Lemma dict_get_default_lookup (d : dict) (key : string) (default : json) :
  Py.dict_get_default d key default
  = match dict_lookup d key with
    | Some v => v
    | None => default
    end.
Proof.
  induction d as [|[k v] d IH]; [reflexivity|].
  simpl. destruct (String.eqb k key); [reflexivity|exact IH].
Qed.

Section TextAndAttribute.
Context {W Elem : Type}.
Variable lib : Library W Elem.
Variable rt : Runtime.

Ltac at_branch Ha :=
  unfold process_step, try_except, dispatch; cbv zeta; rewrite Ha;
  cbn [Py.eq_str String.eqb Ascii.eqb Bool.eqb]; unfold bind, call, lift.

(** X15. A [wait] step whose ['value'] is the decimal text of an integer
    [n] waits [n] ms: [int] reads back the number that [str] writes.  The
    text ['0'] therefore waits 0 ms, while the number [0] waits 1000 ms. *)
Theorem wait_reads_decimal_text (output_dir : string) (i : nat) (step : dict)
    (s : state W Elem) (n : Z) :
  Py.eq_str (Py.dict_get step "action") "wait" = true ->
  Py.dict_get step "value" = JString (Py.str_of_Z n) ->
  int_max_str_digits rt = 0 \/ String.length (Py.str_of_Z n) <= int_max_str_digits rt ->
  process_step lib rt output_dir i step s
  = let (r, w') := page_call lib _ (WaitForTimeout n) (page s) in
    (inr tt,
     {| page := w';
        results :=
          results s ++
          [match r with
           | inr _ => record i (JString "wait") "ok" [("ms", JNum n)]
           | inl e => error_record i (JString "wait") e
           end];
        trace := trace s ++ [call_event i (WaitForTimeout n) r] |}).
Proof.
  intros Ha Hvalue Hlimit. apply eq_str_true in Ha. at_branch Ha.
  pose proof (int_of_str_of_Z _ n Hlimit) as Hint.
  rewrite Hvalue. cbn [Py.truthy py_int].
  destruct (String.eqb_spec (Py.str_of_Z n) "") as [Hempty|_].
  { rewrite Hempty in Hint. discriminate Hint. }
  cbn [negb]. rewrite Hint.
  destruct (page_call lib unit (WaitForTimeout n) (page s)) as [[e|[]] w']; reflexivity.
Qed.

(** X16. A [get_attribute] step reads the attribute that the step names,
    ['href'] when the step has no ['attribute'] key (a key given as [null]
    is passed on as [None]); an element without the attribute is not an
    error: the record is ['ok'] with the value [None]. *)
Theorem get_attribute_reads_href_by_default (output_dir : string) (i : nat) (step : dict)
    (s : state W Elem) :
  Py.eq_str (Py.dict_get step "action") "get_attribute" = true ->
  process_step lib rt output_dir i step s
  = let attribute :=
      match dict_lookup step "attribute" with
      | Some a => a
      | None => JString "href"
      end in
    let (r, w') :=
      page_call lib _ (LocatorFirstGetAttribute (Py.dict_get step "selector") attribute)
        (page s) in
    (inr tt,
     {| page := w';
        results :=
          results s ++
          [match r with
           | inr val =>
               [("step", JNum (Z.of_nat i)); ("action", JString "get_attribute");
                ("status", JString "ok");
                ("selector", Py.dict_get step "selector");
                ("attribute", attribute);
                ("value", match val with Some v => JString v | None => JNull end)]
           | inl e => error_record i (JString "get_attribute") e
           end];
        trace :=
          trace s ++
          [call_event i
             (LocatorFirstGetAttribute (Py.dict_get step "selector") attribute) r] |}).
Proof.
  intros Ha. apply eq_str_true in Ha. at_branch Ha.
  rewrite dict_get_default_lookup. cbv zeta.
  destruct (page_call lib (option string)
              (LocatorFirstGetAttribute (Py.dict_get step "selector")
                 match dict_lookup step "attribute" with
                 | Some a => a
                 | None => JString "href"
                 end) (page s)) as [[e|[v|]] w']; reflexivity.
Qed.

End TextAndAttribute.

(** ** The further properties on a concrete library *)

(** X4 on an action list whose third entry is a number. *)
Lemma non_dict_step_ends_the_pass_witness :
  is_dict (JNum 3) = false /\
  exists (recs : list dict) (evs : list (event nat)) (w' : nat),
    page_action Fixture.lib Fixture.rt Sample.broken_actions "out" (fresh 0)
    = (inl (error Fixture.rt (NoAttributeGet (JNum 3))),
       {| page := w'; results := recs; trace := evs |}) /\
    length recs = 2.
Proof.
  split; [reflexivity|].
  destruct (non_dict_step_ends_the_pass Fixture.lib Fixture.rt "out"
              [Fixture.click_step; Fixture.text_step] (JNum 3)
              [JObject Fixture.click_step] (fresh 0) eq_refl)
    as (recs & evs & w' & Hrun & Hlen & _).
  exists recs, evs, w'. split; [exact Hrun|exact Hlen].
Defined.

(** X5 on a second pass over the sample steps. *)
Lemma earlier_results_are_kept_witness :
  let s1 := snd (page_action Fixture.lib Fixture.rt (JArray (map JObject Fixture.steps))
                   "out" (fresh 0)) in
  nth_error Fixture.steps 0 = Some Fixture.click_step /\
  exists (s' : state nat nat) (rec : dict),
    page_action Fixture.lib Fixture.rt (JArray (map JObject Fixture.steps)) "out" s1
    = (inr (results s'), s') /\
    length (results s') = 12 /\
    nth_error (results s') 6 = Some rec /\
    dict_lookup rec "step" = Some (JNum 0).
Proof.
  intros s1. split; [reflexivity|].
  destruct (earlier_results_are_kept Fixture.lib Fixture.rt "out" Fixture.steps s1)
    as (recs & s' & Hrun & Hres & Hlen & Hnth).
  destruct (Hnth 0 Fixture.click_step eq_refl) as (rec & Hrec & Hstep).
  exists s', rec. split; [exact Hrun|]. split; [|split; [exact Hrec|exact Hstep]].
  rewrite Hres, length_app, Hlen. reflexivity.
Defined.

(** X6 on a config for the dynamic fetcher that asks for the solver. *)
Lemma fetcher_keywords_witness :
  exists call : FetchCall,
    ex_fetch (execute_traced Fixture.lib Fixture.rt Fixture.host Sample.dynamic_config)
    = Some call /\
    kw_get (call_kw call) "solve_cloudflare" = None /\
    kw_get (call_kw call) "real_chrome" = Some (KwValue (JBool true)) /\
    kw_get (call_kw call) "user_data_dir" = Some (KwValue (JString "profile")).
Proof.
  eexists. split; [reflexivity|].
  match goal with
  | |- kw_get (call_kw ?c) _ = _ /\ _ =>
      destruct (fetcher_keywords Fixture.lib Fixture.rt Fixture.host
                  [("url", JString "https://example.org/");
                   ("method", JString "fetch");
                   ("solveCloudflare", JBool true);
                   ("realChrome", JNum 1);
                   ("userDataDir", JString "profile")] c eq_refl)
        as (_ & Hchrome & Hdir & _ & _ & _ & Hsolve)
  end.
  split; [exact Hsolve|]. split; [exact Hchrome|exact Hdir].
Defined.

(** X7 on a config whose method is misspelt. *)
Lemma method_selects_fetcher_witness :
  exists (d : dict) (kw : fetch_kwargs),
    execute Fixture.lib Fixture.rt Fixture.host Sample.typo_config = inr d /\
    ex_fetch (execute_traced Fixture.lib Fixture.rt Fixture.host Sample.typo_config)
    = Some (FetcherGet (JString "https://example.org/") kw).
Proof.
  destruct (execute Fixture.lib Fixture.rt Fixture.host Sample.typo_config)
    as [e|d] eqn:Hrun; [vm_compute in Hrun; discriminate Hrun|].
  destruct (method_selects_fetcher Fixture.lib Fixture.rt Fixture.host _ d Hrun)
    as (cfg & call & Hcfg & Hcall & Hurl & Hkind).
  injection Hcfg as <-.
  destruct call as [url kw|url kw|url kw];
    [vm_compute in Hkind; discriminate Hkind
    |destruct Hkind as [_ Hkind]; vm_compute in Hkind; discriminate Hkind|].
  exists d, kw. split; [reflexivity|].
  rewrite Hcall. cbn [call_url] in Hurl. vm_compute in Hurl. now injection Hurl as <-.
Defined.

(** X8 on a stdin that is not JSON. *)
Lemma unreadable_config_escapes_witness :
  arg_stdin Sample.flags_stdin = true /\
  stdin_json Sample.host_bad_stdin = inl (PyException "Expecting value") /\
  main Fixture.lib Fixture.rt Sample.host_bad_stdin Sample.flags_stdin
  = {| stdout := []; stderr := []; ending := Uncaught (PyException "Expecting value") |}.
Proof.
  split; [reflexivity|]. split; [reflexivity|].
  apply (unreadable_config_escapes Fixture.lib Fixture.rt Sample.host_bad_stdin
           Sample.flags_stdin (PyException "Expecting value")).
  left. split; reflexivity.
Defined.

(** X9 on a stdin whose config has no url. *)
Lemma config_without_url_is_reported_witness :
  load_config Fixture.rt Sample.host_no_url Sample.flags_stdin
  = Some (inr Sample.no_url_config) /\
  ex_fetch (execute_traced Fixture.lib Fixture.rt Sample.host_no_url Sample.no_url_config)
  = None /\
  ending (main Fixture.lib Fixture.rt Sample.host_no_url Sample.flags_stdin) = SysExit 1.
Proof.
  split; [reflexivity|].
  destruct (config_without_url_is_reported Fixture.lib Fixture.rt Sample.host_no_url
              Sample.flags_stdin Sample.no_url_config eq_refl) as [Hfetch Hmain].
  - intros cfg Hcfg. injection Hcfg as <-. reflexivity.
  - split; [exact Hfetch|]. now rewrite Hmain.
Defined.

(** X10 on [--url https://example.org/ --method get --no-headless --timeout
    30500 --solve-cloudflare]. *)
Lemma flags_reach_the_fetcher_witness :
  exists (config : json) (kw : fetch_kwargs),
    config_of_flags Fixture.rt Sample.flags_get "https://example.org/" = inr config /\
    ex_fetch (execute_traced Fixture.lib Fixture.rt Fixture.host config)
    = Some (FetcherGet (JString "https://example.org/") kw) /\
    kw_get kw "headless" = Some (KwValue (JBool false)) /\
    kw_get kw "timeout" = Some (KwValue (JNum 30)) /\
    kw_get kw "solve_cloudflare" = None.
Proof.
  eexists.
  destruct (flags_reach_the_fetcher Fixture.lib Fixture.rt Fixture.host Sample.flags_get
              "https://example.org/" _ eq_refl eq_refl eq_refl
              ltac:(discriminate) eq_refl eq_refl)
    as (_ & kw & Hcall & Hheadless & Htimeout & Hsolve & _).
  exists kw. split; [reflexivity|]. split; [exact Hcall|].
  split; [exact Hheadless|]. split; [exact Htimeout|exact Hsolve].
Defined.

(** X11 on a [wait] step whose value is the number 0. *)
Lemma wait_duration_witness :
  Py.eq_str (Py.dict_get Sample.wait_zero_step "action") "wait" = true /\
  Py.truthy (Py.dict_get Sample.wait_zero_step "value") = false /\
  results (snd (process_step Fixture.lib Fixture.rt "out" 0 Sample.wait_zero_step (fresh 0)))
  = [[("step", JNum 0); ("action", JString "wait"); ("status", JString "ok");
      ("ms", JNum 1000)]].
Proof.
  split; [reflexivity|]. split; [reflexivity|].
  rewrite (wait_duration Fixture.lib Fixture.rt "out" 0 Sample.wait_zero_step (fresh 0) 1000
             eq_refl (or_introl (conj eq_refl eq_refl))).
  reflexivity.
Defined.

(** X12 on the sample [list_elements] step. *)
Lemma texts_follow_elements_witness :
  Py.eq_str (Py.dict_get Fixture.list_step "action") "list_elements" = true /\
  exists (outs : list (exn + string)) (s' : state nat nat),
    length outs = 3 /\
    process_step Fixture.lib Fixture.rt "out" 0 Fixture.list_step (fresh 0) = (inr tt, s') /\
    dict_lookup (last (results s') []) "texts"
    = Some (JArray (map text_of outs)).
Proof.
  split; [reflexivity|].
  destruct (texts_follow_elements Fixture.lib Fixture.rt "out" 0 Fixture.list_step (fresh 0)
              [0; 1; 2] 1 eq_refl eq_refl) as (outs & s' & Hlen & Hrun & _ & Hres).
  exists outs, s'. split; [exact Hlen|]. split; [exact Hrun|].
  rewrite Hres. reflexivity.
Defined.

(** X13 on the sample [list_elements] step. *)
Lemma listed_texts_are_trimmed_witness :
  Py.eq_str (Py.dict_get Fixture.list_step "action") "list_elements" = true /\
  exists (rec : dict) (texts : list json),
    dict_lookup rec "texts" = Some (JArray texts) /\
    Forall (fun t => exists str : string,
                t = JString str /\
                starts_with_space str = false /\ ends_with_space str = false) texts.
Proof.
  split; [reflexivity|].
  destruct (listed_texts_are_trimmed Fixture.lib Fixture.rt "out" 0 Fixture.list_step
              (fresh 0) eq_refl) as (rec & s' & _ & _ & Htexts).
  cbn in Htexts. destruct Htexts as (texts & Hrec & Hall).
  exists rec, texts. split; [exact Hrec|exact Hall].
Defined.

(** X14 on two steps of index 3. *)
Lemma default_screenshot_names_differ_witness :
  Py.truthy JNull = false /\
  Py.truthy (JString EmptyString) = false /\
  screenshot_name 3 JNull = screenshot_name 3 (JString EmptyString) /\
  3 = 3.
Proof.
  split; [reflexivity|]. split; [reflexivity|]. split; [reflexivity|].
  exact (default_screenshot_names_differ 3 3 JNull (JString EmptyString)
           eq_refl eq_refl eq_refl).
Defined.

(** X15 on a [wait] step whose value is the text ['0']. *)
Lemma wait_reads_decimal_text_witness :
  Py.eq_str (Py.dict_get Sample.wait_text_step "action") "wait" = true /\
  Py.dict_get Sample.wait_text_step "value" = JString (Py.str_of_Z 0) /\
  results (snd (process_step Fixture.lib Fixture.rt "out" 0 Sample.wait_text_step (fresh 0)))
  = [[("step", JNum 0); ("action", JString "wait"); ("status", JString "ok");
      ("ms", JNum 0)]].
Proof.
  split; [reflexivity|]. split; [reflexivity|].
  rewrite (wait_reads_decimal_text Fixture.lib Fixture.rt "out" 0 Sample.wait_text_step
             (fresh 0) 0 eq_refl eq_refl).
  - reflexivity.
  - right. vm_compute. lia.
Defined.

(** X16 on a [get_attribute] step without an ['attribute'] key. *)
Lemma get_attribute_reads_href_by_default_witness :
  Py.eq_str (Py.dict_get Sample.attribute_step "action") "get_attribute" = true /\
  results (snd (process_step Fixture.lib Fixture.rt "out" 0 Sample.attribute_step (fresh 0)))
  = [[("step", JNum 0); ("action", JString "get_attribute"); ("status", JString "ok");
      ("selector", JString "a.next"); ("attribute", JString "href");
      ("value", JString "/next")]].
Proof.
  split; [reflexivity|].
  rewrite (get_attribute_reads_href_by_default Fixture.lib Fixture.rt "out" 0
             Sample.attribute_step (fresh 0) eq_refl).
  reflexivity.
Defined.
